(** * post_reels.py: a shallow embedding and its verified properties

    The script uploads a video to a remote media service as an
    asynchronous job: it normalises the resource URL, probes it, creates
    the job, polls its status with a capped backoff, publishes it and
    resolves a permalink.  Each Python function is embedded below under
    its own name; Python exceptions are [option]/sum values, dictionaries
    are [gmap]s, and the network is an explicit environment whose
    requests are recorded in an event trace. *)

From Stdlib Require Import ZArith Ascii String List Lia.
From stdpp Require Import base option list strings gmap pretty.

Set Warnings "-register-all".

Local Open Scope string_scope.
Local Open Scope Z_scope.

(** ** Python string primitives

    Strings are Rocq's byte strings; on ASCII text the operations below
    are Python's [str] operations. *)

Module PyStr.

(** [p in s] for strings: [p] occurs as a contiguous substring of [s]. *)
Fixpoint contains (p s : string) : bool :=
  if String.prefix p s then true
  else match s with
       | EmptyString => false
       | String _ s' => contains p s'
       end.

(** [s.split(sep)] for a one-character separator: [k] separators give
    [k+1] pieces, and the empty string gives one empty piece. *)
Fixpoint split (sep : ascii) (s : string) : list string :=
  match s with
  | EmptyString => [EmptyString]
  | String c s' =>
      if Ascii.eqb c sep then EmptyString :: split sep s'
      else match split sep s' with
           | [] => [String c EmptyString]
           | p :: ps => String c p :: ps
           end
  end.

(** [sep.join(l)]. *)
Fixpoint join (sep : string) (l : list string) : string :=
  match l with
  | [] => EmptyString
  | [x] => x
  | x :: l' => x +:+ sep +:+ join sep l'
  end.

(** [parts.index(x)]: position of the first occurrence, [None] for the
    [ValueError] Python raises when there is none. *)
Definition index (x : string) (parts : list string) : option nat :=
  fst <$> list_find (λ p, p = x) parts.

(** [parts[a:b]] with [0 <= a <= b]; slicing never raises. *)
Definition slice (a b : nat) (parts : list string) : list string :=
  take (b - a) (drop a parts).

(** [c.upper()] on one ASCII letter. *)
Definition upper_ascii (c : ascii) : ascii :=
  let n := nat_of_ascii c in
  if (Nat.leb 97 n && Nat.leb n 122)%bool then ascii_of_nat (n - 32) else c.

(** [s.upper()], on ASCII text. *)
Fixpoint upper (s : string) : string :=
  match s with
  | EmptyString => EmptyString
  | String c s' => String (upper_ascii c) (upper s')
  end.

(** [s[:n]]. *)
Definition truncate (n : nat) (s : string) : string := String.substring 0 n s.

(** No character of [s] is [sep]. *)
Fixpoint sep_free (sep : ascii) (s : string) : bool :=
  match s with
  | EmptyString => true
  | String c s' => negb (Ascii.eqb c sep) && sep_free sep s'
  end.

End PyStr.

(** ** Resource Locator Normalizer *)

Module Normalizer.
Import PyStr.

Abbreviation slash := ("/"%char).

(** [normalize_github_raw]: the body of the [try] runs in the option
    monad, [None] standing for any raised exception ([IndexError] from a
    subscript, [ValueError] from [index]); [except Exception] turns it
    into the original URL. *)
Definition rewrite_parts (parts : list string) : option string :=
  user ← parts !! 3%nat;
  repo ← parts !! 4%nat;
  idx ← index "raw" parts;
  bp ← (if decide (slice (idx + 1) (idx + 3) parts = ["refs"; "heads"])
        then branch ← parts !! (idx + 3)%nat;
             Some (branch, join "/" (drop (idx + 4) parts))
        else branch ← parts !! (idx + 1)%nat;
             Some (branch, join "/" (drop (idx + 2) parts)));
  Some ("https://raw.githubusercontent.com/" +:+ user +:+ "/" +:+ repo
          +:+ "/" +:+ bp.1 +:+ "/" +:+ bp.2).

Definition matches_pattern (url : string) : bool :=
  contains "github.com" url && contains "/raw/" url.

Definition normalize_github_raw (url : string) : string :=
  if matches_pattern url then
    let parts := split slash url in
    default url (rewrite_parts parts)
  else url.

(** The components of a URL after the scheme, the empty component and
    the host, following the layout the source comments on:
    [[https:, '', github.com, user, repo, raw, ...]]. *)
Definition path_segments (url : string) : list string :=
  drop 3 (split slash url).

(** How often the component [raw] occurs in [url.split("/")]. *)
Definition count_raw (url : string) : nat :=
  length (filter (λ p, p = "raw") (split slash url)).

(** The two URL shapes of the docstring, written out. *)
Definition web_url_refs_heads (owner repo branch : string) (segs : list string) : string :=
  "https://github.com/" +:+ owner +:+ "/" +:+ repo +:+ "/raw/refs/heads/"
    +:+ branch +:+ "/" +:+ join "/" segs.

Definition web_url_branch (owner repo branch : string) (segs : list string) : string :=
  "https://github.com/" +:+ owner +:+ "/" +:+ repo +:+ "/raw/"
    +:+ branch +:+ "/" +:+ join "/" segs.

Definition raw_url (owner repo branch : string) (segs : list string) : string :=
  "https://raw.githubusercontent.com/" +:+ owner +:+ "/" +:+ repo +:+ "/"
    +:+ branch +:+ "/" +:+ join "/" segs.

End Normalizer.

(** ** JSON values, HTTP messages and the event trace *)

Module Http.

(** A decoded JSON value, as [resp.json()] returns it (numbers are the
    integers; the script never computes with them). *)
Inductive jval :=
| JNull
| JBool (b : bool)
| JInt (z : Z)
| JStr (s : string)
| JArr (l : list jval)
| JObj (m : gmap string jval).

(** Python truthiness of a decoded value. *)
Definition truthy (v : jval) : bool :=
  match v with
  | JNull => false
  | JBool b => b
  | JInt z => negb (z =? 0)
  | JStr s => negb (String.eqb s EmptyString)
  | JArr l => match l with [] => false | _ => true end
  | JObj m => negb (bool_decide (m = ∅))
  end.

(** [x or y]. *)
Definition py_or (x y : jval) : jval := if truthy x then x else y.

(** [d.get(k)]: [None] of Python is [JNull]. *)
Definition dict_get (k : string) (d : gmap string jval) : jval :=
  default JNull (d !! k).

(** [k in d]. *)
Definition has_key (k : string) (d : gmap string jval) : bool :=
  bool_decide (is_Some (d !! k)).

Inductive verb := HEAD | GET | POST.

(** One call into the [requests] library.  [rq_session] tells whether it
    goes through the shared [SESSION]; [rq_fields] is the [params=] or
    [data=] dictionary. *)
Record request := {
  rq_session : bool;
  rq_verb : verb;
  rq_url : string;
  rq_fields : gmap string string;
  rq_stream : bool;
  rq_timeout : Z
}.

(** What the script reads of a [requests.Response]: [resp_json] is
    [None] when [resp.json()] raises, and a body that decodes is a JSON
    object, as the wire protocol has it. *)
Record response := {
  status_code : Z;
  reason : string;
  final_url : string;
  content_type : option string;
  text : string;
  resp_json : option (gmap string jval)
}.

(** A call either raises (with the text of the exception) or returns. *)
Inductive http_result :=
| Raised (e : string)
| Returned (r : response).

(** The lines the script prints, each with the data it is formatted from. *)
Inductive line :=
| LMissingConfig
| LVideoCheckFailed (why : string)
| LCreating
| LCreateResponse (d : gmap string jval)
| LCreateFailed (d : gmap string jval)
| LNoCreationId
| LWaiting
| LStatus (d : gmap string jval)
| LStatusFailed (d : gmap string jval)
| LProcessingFailed
| LTimedOut
| LPublishing
| LPublishResponse (d : gmap string jval)
| LPublishFailed (d : gmap string jval)
| LDone
| LPermalinkResponse (d : gmap string jval)
| LNoMediaId.

Inductive event :=
| EvRequest (rq : request)
| EvClose
| EvSleep (secs : Z)
| EvPrint (l : line).

(** How a run ends: [sys.exit(code)] (falling off the end of [main] is
    exit code 0) or an exception nobody catches. *)
Inductive outcome :=
| Exit (code : Z)
| Uncaught (e : string).

(** ** The program monad: a call counter is threaded through, the
    events are written out, and [Stop] aborts the rest of the run. *)
Inductive res (A : Type) :=
| Val (a : A)
| Stop (o : outcome)
| OutOfFuel.
Arguments Val {A} a.
Arguments Stop {A} o.
Arguments OutOfFuel {A}.

Definition prog (A : Type) : Type := nat → res A * list event * nat.

Definition ret {A} (a : A) : prog A := λ n, (Val a, [], n).

Definition bind {A B} (m : prog A) (k : A → prog B) : prog B :=
  λ n, match m n with
       | (Val a, es, n') =>
           match k a n' with (r, es', n'') => (r, (es ++ es')%list, n'') end
       | (Stop o, es, n') => (Stop o, es, n')
       | (OutOfFuel, es, n') => (OutOfFuel, es, n')
       end.

#[global] Instance prog_ret : MRet prog := @ret.
#[global] Instance prog_bind : MBind prog := λ A B k m, bind m k.

Definition emit (e : event) : prog unit := λ n, (Val tt, [e], n).
Definition print (l : line) : prog unit := emit (EvPrint l).
Definition sleep (secs : Z) : prog unit := emit (EvSleep secs).
Definition sys_exit {A} (code : Z) : prog A := λ n, (Stop (Exit code), [], n).
Definition raise {A} (e : string) : prog A := λ n, (Stop (Uncaught e), [], n).
Definition out_of_fuel {A} : prog A := λ n, (OutOfFuel, [], n).

(** A program that never runs out of fuel. *)
Definition finishes {A} (m : prog A) : Prop :=
  ∀ n, (m n).1.1 ≠ OutOfFuel.

(** Running a program from the first call on: its result and its trace. *)
Definition run {A} (m : prog A) : res A * list event :=
  (m 0%nat).1.

End Http.

(** ** The script: configuration, prober, remote client, controller *)

Module Script.
Import PyStr Http.

Section WithWorld.

(** [hmac.new(key, msg, hashlib.sha256).hexdigest()], from the standard
    library. *)
Variable hmac_sha256_hex : string → string → string.

(** Python's [repr] of a list or a dict, which [str] returns on them. *)
Variable py_repr : jval → string.

(** The network: the answer to the [n]-th call of the run. *)
Variable net : nat → request → http_result.

(** The values read from the environment at import time. *)
Variable ACCESS_TOKEN : string.
Variable IG_USER_ID : string.
Variable APP_SECRET : option string.

Definition GRAPH : string := "https://graph.facebook.com/v23.0".

(** [str(v)] on a decoded value. *)
Definition py_str (v : jval) : string :=
  match v with
  | JNull => "None"
  | JBool true => "True"
  | JBool false => "False"
  | JInt z => pretty z
  | JStr s => s
  | JArr _ | JObj _ => py_repr v
  end.

(** Issue one call: it is recorded, answered by the network, counted. *)
Definition call (rq : request) : prog http_result :=
  λ n, (Val (net n rq), [EvRequest rq], S n).

(** A call outside any [try]: a raised exception propagates. *)
Definition call_or_raise (rq : request) : prog response :=
  r ← call rq;
  match r with
  | Raised e => raise e
  | Returned resp => mret resp
  end.

Definition appsecret_proof : option string :=
  match APP_SECRET with
  | None => None
  | Some secret =>
      if String.eqb secret EmptyString then None
      else Some (hmac_sha256_hex secret ACCESS_TOKEN)
  end.

(** [params_with_auth(extra)]; [p.update(extra)] lets [extra] win. *)
Definition params_with_auth (extra : option (gmap string string)) : gmap string string :=
  let p : gmap string string := {[ "access_token" := ACCESS_TOKEN ]} in
  let p := match appsecret_proof with
           | Some proof =>
               if String.eqb proof EmptyString then p else <[ "appsecret_proof" := proof ]> p
           | None => p
           end in
  match extra with
  | Some e => if bool_decide (e = ∅) then p else e ∪ p
  | None => p
  end.

(** [check_video_url_public]. *)
Definition is_video (ctype : string) : bool :=
  contains "video" ctype || contains "octet-stream" ctype.

(** [g.raise_for_status()]: the text of the [HTTPError], if one is raised. *)
Definition raise_for_status (g : response) : option string :=
  let c := status_code g in
  if (400 <=? c) && (c <? 500) then
    Some (pretty c +:+ " Client Error: " +:+ reason g +:+ " for url: " +:+ final_url g)
  else if (500 <=? c) && (c <? 600) then
    Some (pretty c +:+ " Server Error: " +:+ reason g +:+ " for url: " +:+ final_url g)
  else None.

(** [SESSION.head(url, allow_redirects=True, timeout=20)] and
    [SESSION.get(url, stream=True, allow_redirects=True, timeout=20)]. *)
Definition head_probe (url : string) : request :=
  {| rq_session := true; rq_verb := HEAD; rq_url := url;
     rq_fields := ∅; rq_stream := false; rq_timeout := 20 |}.

Definition get_probe (url : string) : request :=
  {| rq_session := true; rq_verb := GET; rq_url := url;
     rq_fields := ∅; rq_stream := true; rq_timeout := 20 |}.

(** [ctype or 'N/A']. *)
Definition shown_ctype (ctype : string) : string :=
  if String.eqb ctype EmptyString then "N/A" else ctype.

Definition check_video_url_public (url : string) : prog (bool * string) :=
  h ← call (head_probe url);
  match h with
  | Raised e => mret (false, "HEAD request failed: " +:+ e)
  | Returned r =>
      if 400 <=? status_code r then
        mret (false, "URL returned HTTP " +:+ pretty (status_code r))
      else
        let ctype := default EmptyString (content_type r) in
        if negb (is_video ctype) then
          g ← call (get_probe url);
          match g with
          | Raised e => mret (false, "Could not validate video content-type: " +:+ e)
          | Returned g =>
              match raise_for_status g with
              | Some e => mret (false, "Could not validate video content-type: " +:+ e)
              | None =>
                  let ctype := default EmptyString (content_type g) in
                  emit EvClose;;
                  if negb (is_video ctype) then
                    mret (false, "Unexpected Content-Type: " +:+ shown_ctype ctype)
                  else mret (true, "OK")
              end
          end
        else mret (true, "OK")
  end.

(** [safe_json]. *)
Definition safe_json (resp : response) : gmap string jval :=
  match resp_json resp with
  | Some d => d
  | None =>
      {[ "error" := JObj {[ "message" :=
                    JStr ("Non-JSON response (" +:+ pretty (status_code resp)
                            +:+ "): " +:+ truncate 500 (text resp)) ]};
         "http_status" := JInt (status_code resp) ]}
  end.

(** The four remote operations.  Each builds its request and sends it;
    [create_reel], [publish_reel] and [get_permalink] go through
    [SESSION], [params_with_auth] and [safe_json], while [get_status]
    calls [requests.get] with its own parameters and [r.json()]. *)
Definition create_request (video_url caption : string) : request :=
  let url := GRAPH +:+ "/" +:+ IG_USER_ID +:+ "/media" in
  let payload : gmap string string :=
    {[ "media_type" := "REELS"; "caption" := caption;
       "video_url" := video_url; "share_to_feed" := "true" ]} in
  {| rq_session := true; rq_verb := POST; rq_url := url;
     rq_fields := params_with_auth (Some payload);
     rq_stream := false; rq_timeout := 120 |}.

Definition create_reel (video_url caption : string) : prog (gmap string jval) :=
  r ← call_or_raise (create_request video_url caption);
  mret (safe_json r).

Definition status_request (creation_id : jval) : request :=
  let url := GRAPH +:+ "/" +:+ py_str creation_id in
  let params : gmap string string :=
    {[ "fields" := "status_code,status"; "access_token" := ACCESS_TOKEN ]} in
  {| rq_session := false; rq_verb := GET; rq_url := url;
     rq_fields := params; rq_stream := false; rq_timeout := 60 |}.

Definition get_status (creation_id : jval) : prog (gmap string jval) :=
  r ← call_or_raise (status_request creation_id);
  match resp_json r with
  | Some d => mret d
  | None => raise "JSONDecodeError"
  end.

Definition publish_request (creation_id : jval) : request :=
  let url := GRAPH +:+ "/" +:+ IG_USER_ID +:+ "/media_publish" in
  {| rq_session := true; rq_verb := POST; rq_url := url;
     rq_fields := params_with_auth (Some {[ "creation_id" := py_str creation_id ]});
     rq_stream := false; rq_timeout := 120 |}.

Definition publish_reel (creation_id : jval) : prog (gmap string jval) :=
  r ← call_or_raise (publish_request creation_id);
  mret (safe_json r).

Definition permalink_request (media_id : jval) : request :=
  let url := GRAPH +:+ "/" +:+ py_str media_id in
  {| rq_session := true; rq_verb := GET; rq_url := url;
     rq_fields := params_with_auth (Some {[ "fields" := "permalink" ]});
     rq_stream := false; rq_timeout := 60 |}.

Definition get_permalink (media_id : jval) : prog (gmap string jval) :=
  r ← call_or_raise (permalink_request media_id);
  mret (safe_json r).

(** [int(b * 1.5)]: for an integer [b] below 2^51 in absolute value the
    binary64 product is exactly [3b/2], and [int] truncates towards zero. *)
Definition int_times_1_5 (b : Z) : Z := Z.quot (3 * b) 2.

Definition max_backoff : Z := 60.
Definition max_wait_sec : Z := 15 * 60.

(** The two local variables the polling loop carries. *)
Record timers := { waited : Z; backoff : Z }.

Definition timers0 : timers := {| waited := 0; backoff := 5 |}.

(** The three assignments after [time.sleep(backoff)]. *)
Definition advance (t : timers) : timers :=
  {| waited := waited t + backoff t;
     backoff := Z.min max_backoff (int_times_1_5 (backoff t)) |}.

(** [str(status.get("status_code") or '').upper()]. *)
Definition status_code_of (status : gmap string jval) : string :=
  upper (py_str (py_or (dict_get "status_code" status) (JStr EmptyString))).

(** [explain_error(prefix, data)].  [err.get] exists on a dict only: on
    any other truthy value of [data["error"]] it raises [AttributeError],
    which is [None] here.  The three values are formatted with [str]. *)
Definition explain_error (prefix : string) (data : gmap string jval) : option string :=
  let err := py_or (dict_get "error" data) (JObj ∅) in
  match err with
  | JObj e =>
      let msg := py_or (dict_get "message" e) (JStr (py_repr (JObj data))) in
      let code := dict_get "code" e in
      let sub := dict_get "error_subcode" e in
      Some (prefix +:+ ": " +:+ py_str msg
              +:+ " (code=" +:+ py_str code
              +:+ ", subcode=" +:+ py_str sub +:+ ")")
  | _ => None
  end.

(** [print("❌", explain_error(prefix, data)); sys.exit(1)]: the message
    is formatted first, so an [AttributeError] of [explain_error] ends
    the run before anything is printed. *)
Definition fail_with (prefix : string) (data : gmap string jval) (l : line)
    : prog unit :=
  match explain_error prefix data with
  | Some _ => print l;; sys_exit 1
  | None => raise "AttributeError"
  end.

Definition is_error_code (code : string) : bool :=
  String.eqb code "ERROR" || String.eqb code "ERROR_UPLOADING".

(** The [while True] loop of [main]; returning is its [break]. *)
Fixpoint poll_loop (fuel : nat) (creation_id : jval) (t : timers) : prog unit :=
  match fuel with
  | O => out_of_fuel
  | S fuel' =>
      status ← get_status creation_id;
      print (LStatus status);;
      if has_key "error" status then
        fail_with "Status failed" status (LStatusFailed status)
      else
        let code := status_code_of status in
        if String.eqb code "FINISHED" then mret tt
        else if is_error_code code then
          print LProcessingFailed;; sys_exit 1
        else
          sleep (backoff t);;
          let t' := advance t in
          if max_wait_sec <=? waited t' then
            print LTimedOut;; sys_exit 1
          else poll_loop fuel' creation_id t'
  end.

(** Step 3 of [main]: publish, then resolve the permalink. *)
Definition publish_and_resolve (creation_id : jval) : prog unit :=
  print LPublishing;;
  pub ← publish_reel creation_id;
  print (LPublishResponse pub);;
  if has_key "error" pub then
    fail_with "Publish failed" pub (LPublishFailed pub)
  else
    let media_id := dict_get "id" pub in
    if truthy media_id then
      link ← get_permalink media_id;
      print LDone;;
      print (LPermalinkResponse link)
    else print LNoMediaId.

(** [main], on the parsed arguments. *)
Definition main (fuel : nat) (video_url caption : string) : prog unit :=
  let vid_url := Normalizer.normalize_github_raw video_url in
  chk ← check_video_url_public vid_url;
  if negb chk.1 then
    print (LVideoCheckFailed chk.2);; sys_exit 1
  else
    print LCreating;;
    creation ← create_reel vid_url caption;
    print (LCreateResponse creation);;
    if has_key "error" creation then
      fail_with "Create failed" creation (LCreateFailed creation)
    else
      let creation_id := dict_get "id" creation in
      if negb (truthy creation_id) then
        print LNoCreationId;; sys_exit 1
      else
        print LWaiting;;
        poll_loop fuel creation_id timers0;;
        publish_and_resolve creation_id.

(** The whole script: the import-time check of the configuration (an
    unset variable and an empty one are both falsy), then [main]. *)
Definition script (fuel : nat) (video_url caption : string) : prog unit :=
  if String.eqb ACCESS_TOKEN EmptyString || String.eqb IG_USER_ID EmptyString then
    print LMissingConfig;; sys_exit 1
  else main fuel video_url caption.

End WithWorld.

(** The exit status of a finished run: falling off the end is status 0. *)
Definition exit_status (r : res unit) : option outcome :=
  match r with
  | Val _ => Some (Exit 0)
  | Stop o => Some o
  | OutOfFuel => None
  end.

(** The loop heads a run can pass through: the loop is entered with
    [timers0], and goes round again when the ceiling is not reached. *)
Inductive loop_head : timers → Prop :=
| head_entry : loop_head timers0
| head_again t :
    loop_head t → waited (advance t) < max_wait_sec → loop_head (advance t).

(** The timers at the [n]-th iteration, and the interval slept there. *)
Definition timers_at (n : nat) : timers := Nat.iter n advance timers0.
Definition sleep_at (n : nat) : Z := backoff (timers_at n).

(** The sleeps and the requests of a trace, in order. *)
Definition sleeps (tr : list event) : list Z :=
  omap (λ e, match e with EvSleep s => Some s | _ => None end) tr.

Definition requests (tr : list event) : list request :=
  omap (λ e, match e with EvRequest rq => Some rq | _ => None end) tr.

(** Seconds slept in all. *)
Definition total (l : list Z) : Z := foldr Z.add 0 l.

End Script.

(** ** Sample worlds, for running the script on concrete inputs *)

Module Scenario.
Import Http Script.

Definition sample_hmac (key msg : string) : string := "hmac(" +:+ key +:+ "," +:+ msg +:+ ")".
Definition sample_repr (v : jval) : string := "{...}".

(** A 200 answer with the given Content-Type and no JSON body. *)
Definition page (ctype : option string) : response :=
  {| status_code := 200; reason := "OK"; final_url := EmptyString;
     content_type := ctype; text := "<html></html>"; resp_json := None |}.

(** A 200 answer with a JSON object as body. *)
Definition json_body (d : gmap string jval) : response :=
  {| status_code := 200; reason := "OK"; final_url := EmptyString;
     content_type := Some "application/json"; text := EmptyString; resp_json := Some d |}.

Definition bad_gateway : response :=
  {| status_code := 502; reason := "Bad Gateway"; final_url := EmptyString;
     content_type := Some "text/html"; text := "<html>502 Bad Gateway</html>";
     resp_json := None |}.

Definition video_world : nat → request → http_result :=
  λ _ _, Returned (page (Some "video/mp4")).

Definition html_world : nat → request → http_result :=
  λ _ _, Returned (page (Some "text/html")).

(** The calls of a run come in a fixed order: the HEAD probe, the job
    creation, then the status polls, then publish and permalink. *)
Definition created : response := json_body {[ "id" := JStr "123" ]}.

(** The job is created and every status poll says [IN_PROGRESS]. *)
Definition pending_world : nat → request → http_result :=
  λ n _, match n with
         | 0%nat => Returned (page (Some "video/mp4"))
         | 1%nat => Returned created
         | _ => Returned (json_body {[ "status_code" := JStr "IN_PROGRESS" ]})
         end.

(** The first status poll is answered by a gateway error page. *)
Definition gateway_world : nat → request → http_result :=
  λ n _, match n with
         | 0%nat => Returned (page (Some "video/mp4"))
         | 1%nat => Returned created
         | _ => Returned bad_gateway
         end.

(** The end-to-end scenario: created as 123, finished at the first poll,
    published as 456, permalink resolved. *)
Definition permalink_body : gmap string jval :=
  {[ "permalink" := JStr "https://www.instagram.com/reel/abc/" ]}.

Definition happy_world : nat → request → http_result :=
  λ n _, match n with
         | 0%nat => Returned (page (Some "video/mp4"))
         | 1%nat => Returned created
         | 2%nat => Returned (json_body {[ "status_code" := JStr "FINISHED" ]})
         | 3%nat => Returned (json_body {[ "id" := JStr "456" ]})
         | _ => Returned (json_body permalink_body)
         end.

(** Job creation is refused. *)
Definition invalid_parameter : gmap string jval :=
  {[ "error" := JObj {[ "message" := JStr "Invalid parameter"; "code" := JInt 100 ]} ]}.

Definition rejected_world : nat → request → http_result :=
  λ n _, match n with
         | 0%nat => Returned (page (Some "video/mp4"))
         | _ => Returned (json_body invalid_parameter)
         end.

(** Publishing succeeds without an id. *)
Definition no_id_world : nat → request → http_result :=
  λ n _, match n with
         | 0%nat => Returned (page (Some "video/mp4"))
         | 1%nat => Returned created
         | 2%nat => Returned (json_body {[ "status_code" := JStr "FINISHED" ]})
         | _ => Returned (json_body {[ "success" := JBool true ]})
         end.

(** A lower-case [finished] at the first poll. *)
Definition lowercase_world : nat → request → http_result :=
  λ n _, match n with
         | 0%nat => Returned (page (Some "video/mp4"))
         | 1%nat => Returned created
         | 2%nat => Returned (json_body {[ "status_code" := JStr "finished" ]})
         | _ => Returned (json_body {[ "id" := JStr "456" ]})
         end.

Definition sample_url : string := "https://example.com/clip.mp4".

(** The script in a sample world, with a token, an account and a secret set. *)
Definition run_script (net : nat → request → http_result) (fuel : nat)
    : res unit * list event :=
  run (script sample_hmac sample_repr net "token" "17841400000000000"
         (Some "s3cret") fuel sample_url "caption").

Definition run_poll (net : nat → request → http_result) (fuel : nat)
    : res unit * list event :=
  (poll_loop sample_repr net "token" fuel (JStr "123") timers0 2%nat).1.

End Scenario.

(** ** Request kinds *)

Module Messages.
Import Http Script.

(** The requests that change something on the remote side. *)
Definition is_post (rq : request) : bool :=
  match rq_verb rq with POST => true | _ => false end.

End Messages.

(** ** More sample worlds *)

Module Scenario2.
Import Http Script Scenario.

(** The first status poll carries an error envelope next to FINISHED. *)
Definition throttled : gmap string jval :=
  {[ "status_code" := JStr "FINISHED";
     "error" := JObj {[ "message" := JStr "Application request limit reached";
                        "code" := JInt 4 ]} ]}.

Definition throttled_world : nat → request → http_result :=
  λ n _, match n with
         | 0%nat => Returned (page (Some "video/mp4"))
         | 1%nat => Returned created
         | _ => Returned (json_body throttled)
         end.

(** Everything succeeds up to the permalink, which is answered by a
    gateway error page. *)
Definition no_permalink_world : nat → request → http_result :=
  λ n _, match n with
         | 0%nat => Returned (page (Some "video/mp4"))
         | 1%nat => Returned created
         | 2%nat => Returned (json_body {[ "status_code" := JStr "FINISHED" ]})
         | 3%nat => Returned (json_body {[ "id" := JStr "456" ]})
         | _ => Returned bad_gateway
         end.

(** The status poll is answered with an error that is a bare string. *)
Definition garbled : gmap string jval := {[ "error" := JStr "rate limited" ]}.

Definition garbled_world : nat → request → http_result :=
  λ n _, match n with
         | 0%nat => Returned (page (Some "video/mp4"))
         | 1%nat => Returned created
         | _ => Returned (json_body garbled)
         end.

(** The probe passes and the creation call times out. *)
Definition create_timeout_world : nat → request → http_result :=
  λ n _, match n with
         | 0%nat => Returned (page (Some "video/mp4"))
         | _ => Raised "Read timed out."
         end.

(** The HEAD shows a web page and the fallback GET is answered 404. *)
Definition not_found : response :=
  {| status_code := 404; reason := "Not Found"; final_url := sample_url;
     content_type := Some "text/html"; text := "<html>404</html>";
     resp_json := None |}.

Definition not_found_world : nat → request → http_result :=
  λ n _, match n with
         | 0%nat => Returned (page (Some "text/html"))
         | _ => Returned not_found
         end.

(** [main] in a sample world. *)
Definition run_main (net : nat → request → http_result) (fuel : nat)
    : res unit * list event * nat :=
  main sample_hmac sample_repr net "token" "17841400000000000" (Some "s3cret")
    fuel sample_url "caption" 0%nat.

End Scenario2.

(** * Properties *)

(** ** Facts about the string primitives *)

Module PyStrFacts.
Import PyStr.

#[local] Arguments String.append !_ _ / : simpl nomatch.

Lemma append_assoc (a b c : string) : (a +:+ b) +:+ c = a +:+ (b +:+ c).
Proof. induction a as [|x a IH]; simpl; [reflexivity | by f_equal]. Qed.

Lemma prefix_append (p b : string) : String.prefix p (p +:+ b) = true.
Proof.
  induction p as [|x p IH]; simpl; [by destruct b |].
  destruct (ascii_dec x x); [exact IH | congruence].
Qed.

Lemma prefix_inv (p s : string) :
  String.prefix p s = true → ∃ b, s = p +:+ b.
Proof.
  revert s. induction p as [|x p IH]; intros s H.
  - by exists s.
  - destruct s as [|y s]; simpl in H; [discriminate |].
    destruct (ascii_dec x y) as [->|]; [| discriminate].
    destruct (IH _ H) as [b ->]. by exists b.
Qed.

Lemma contains_unfold (p s : string) :
  contains p s =
  if String.prefix p s then true
  else match s with EmptyString => false | String _ s' => contains p s' end.
Proof. by destruct s. Qed.

Lemma contains_here (p b : string) : contains p (p +:+ b) = true.
Proof. by rewrite contains_unfold, prefix_append. Qed.

Lemma contains_cons (p : string) (c : ascii) (s : string) :
  contains p s = true → contains p (String c s) = true.
Proof. intros H. rewrite contains_unfold, H. by destruct (String.prefix p _). Qed.

Lemma contains_append_r (p a b : string) :
  contains p b = true → contains p (a +:+ b) = true.
Proof.
  intros H. induction a as [|x a IH]; [exact H |].
  simpl. by apply contains_cons.
Qed.

Lemma contains_inv (p s : string) :
  contains p s = true → ∃ a b, s = a +:+ p +:+ b.
Proof.
  induction s as [|c s IH]; rewrite contains_unfold.
  - destruct (String.prefix p EmptyString) eqn:E; [| discriminate]. intros _.
    destruct (prefix_inv _ _ E) as [b Hb]. by exists EmptyString, b.
  - destruct (String.prefix p (String c s)) eqn:E.
    + intros _. destruct (prefix_inv _ _ E) as [b Hb]. by exists EmptyString, b.
    + intros H. destruct (IH H) as (a & b & ->). by exists (String c a), b.
Qed.



Lemma split_nonempty (sep : ascii) (s : string) : split sep s ≠ [].
Proof.
  destruct s as [|c s]; simpl; [done |].
  destruct (Ascii.eqb c sep); [done |]. by destruct (split sep s).
Qed.

(** Splitting distributes over a separator. *)
Lemma split_app_sep (sep : ascii) (a b : string) :
  split sep (a +:+ String sep b) = (split sep a ++ split sep b)%list.
Proof.
  induction a as [|c a IH]; simpl.
  - by rewrite Ascii.eqb_refl.
  - destruct (Ascii.eqb c sep); rewrite IH; [reflexivity |].
    pose proof (split_nonempty sep a). by destruct (split sep a).
Qed.

Lemma split_sep_free (sep : ascii) (s : string) :
  sep_free sep s = true → split sep s = [s].
Proof.
  induction s as [|c s IH]; simpl; [reflexivity |].
  destruct (Ascii.eqb c sep); simpl; [discriminate |].
  intros H. by rewrite (IH H).
Qed.

Lemma split_parts_sep_free (sep : ascii) (s : string) :
  Forall (λ p, sep_free sep p = true) (split sep s).
Proof.
  induction s as [|c s IH]; simpl; [by repeat constructor |].
  destruct (Ascii.eqb c sep) eqn:E; [by constructor |].
  pose proof (split_nonempty sep s).
  destruct (split sep s) as [|p ps]; [done |].
  inversion_clear IH. constructor; [| done]. simpl. by rewrite E.
Qed.

Lemma split_join (sep : ascii) (l : list string) :
  l ≠ [] → Forall (λ p, sep_free sep p = true) l →
  split sep (join (String sep EmptyString) l) = l.
Proof.
  induction l as [|x l IH]; [done |]. intros _ Hl.
  inversion_clear Hl as [|? ? Hx Hl'].
  destruct l as [|y l]; [by apply split_sep_free |].
  change (join (String sep EmptyString) (x :: y :: l))
    with (x +:+ String sep (join (String sep EmptyString) (y :: l))).
  rewrite split_app_sep, (split_sep_free _ _ Hx), IH; done.
Qed.

(** A substring [/x/] shows up as a component [x]. *)
Lemma contains_component (sep : ascii) (x s : string) :
  sep_free sep x = true →
  contains (String sep (x +:+ String sep EmptyString)) s = true → x ∈ split sep s.
Proof.
  intros Hx H. destruct (contains_inv _ _ H) as (a & b & ->).
  change (String sep (x +:+ String sep EmptyString) +:+ b)
    with (String sep ((x +:+ String sep EmptyString) +:+ b)).
  rewrite split_app_sep, append_assoc. simpl.
  rewrite split_app_sep, (split_sep_free _ _ Hx).
  set_solver.
Qed.

End PyStrFacts.

(** ** Resource Locator Normalizer *)

Module NormalizerFacts.
Import PyStr PyStrFacts Normalizer.

#[local] Arguments String.append !_ _ / : simpl nomatch.

Example normalize_docstring_example :
  normalize_github_raw "https://github.com/user/repo/raw/refs/heads/main/file.mp4"
  = "https://raw.githubusercontent.com/user/repo/main/file.mp4".
Proof. vm_compute. reflexivity. Qed.

Example normalize_branch_example :
  normalize_github_raw "https://github.com/user/repo/raw/main/sub/dir/file.mp4"
  = "https://raw.githubusercontent.com/user/repo/main/sub/dir/file.mp4".
Proof. vm_compute. reflexivity. Qed.

Lemma index_here (x : string) (l : list string) : index x (x :: l) = Some 0%nat.
Proof. unfold index. simpl. by rewrite decide_True. Qed.

Lemma index_later (x y : string) (l : list string) :
  y ≠ x → index x (y :: l) = S <$> index x l.
Proof.
  intros H. unfold index. simpl. rewrite decide_False by done.
  by destruct (list_find _ l) as [[i z]|].
Qed.

Lemma index_Some (x : string) (l : list string) (i : nat) :
  index x l = Some i → l !! i = Some x.
Proof.
  unfold index. destruct (list_find _ l) as [[j z]|] eqn:E; [| done].
  simpl. intros [= <-]. apply list_find_Some in E as (H & -> & _). exact H.
Qed.

(** With at most one match in a list, two matching positions coincide. *)
Lemma filter_once_unique (x : string) (l : list string) (i j : nat) :
  (length (filter (λ p, p = x) l) ≤ 1)%nat →
  l !! i = Some x → l !! j = Some x → i = j.
Proof.
  revert i j. induction l as [|y l IH]; intros i j Hlen Hi Hj; [done |].
  rewrite filter_cons in Hlen. destruct (decide (y = x)) as [->|Hne].
  - simpl in Hlen.
    assert (filter (λ p, p = x) l = []) as Hnil
      by (destruct (filter _ l); [done | simpl in Hlen; lia]).
    assert (x ∉ l) as Hnot.
    { intros Hin. assert (x ∈ filter (λ p, p = x) l) as Hf
        by (by apply list_elem_of_filter).
      rewrite Hnil in Hf. by apply not_elem_of_nil in Hf. }
    destruct i as [|i], j as [|j]; [done | | |]; exfalso; apply Hnot;
      eapply list_elem_of_lookup_2; eassumption.
  - destruct i as [|i]; [simpl in Hi; congruence |].
    destruct j as [|j]; [simpl in Hj; congruence |].
    f_equal. by apply IH.
Qed.

Lemma elem_of_split_join (x : string) (l : list string) :
  Forall (λ p, sep_free slash p = true) l →
  x ∈ split slash (join "/" l) → x ∈ l ∨ x = EmptyString.
Proof.
  intros Hl Hx. destruct l as [|y l].
  - right. simpl in Hx. by apply list_elem_of_singleton in Hx.
  - left. by rewrite (split_join slash (y :: l)) in Hx.
Qed.

Lemma matches_pattern_no_raw (u : string) :
  "raw" ∉ split slash u → matches_pattern u = false.
Proof.
  intros H. unfold matches_pattern.
  destruct (contains "/raw/" u) eqn:E; [| by rewrite andb_false_r].
  exfalso. apply H. by apply (contains_component slash "raw").
Qed.

(** The components of a rewritten URL. *)
Lemma split_rewritten (user repo branch path : string) :
  sep_free slash user = true → sep_free slash repo = true →
  sep_free slash branch = true →
  split slash ("https://raw.githubusercontent.com/" +:+ user +:+ "/" +:+ repo
                 +:+ "/" +:+ branch +:+ "/" +:+ path)
  = ("https:" :: EmptyString :: "raw.githubusercontent.com" :: user :: repo :: branch
       :: split slash path)%list.
Proof.
  intros Hu Hr Hb.
  change ("https://raw.githubusercontent.com/" +:+ user +:+ "/" +:+ repo
            +:+ "/" +:+ branch +:+ "/" +:+ path)
    with ("https:" +:+ String slash (EmptyString +:+ String slash
            ("raw.githubusercontent.com" +:+ String slash (user +:+ String slash
               (repo +:+ String slash (branch +:+ String slash path)))))).
  rewrite !split_app_sep.
  by rewrite (split_sep_free _ _ Hu), (split_sep_free _ _ Hr), (split_sep_free _ _ Hb).
Qed.

Lemma matches_refs_heads (owner repo branch : string) (segs : list string) :
  matches_pattern (web_url_refs_heads owner repo branch segs) = true.
Proof.
  unfold matches_pattern, web_url_refs_heads. apply andb_true_intro. split.
  - reflexivity.
  - apply (contains_append_r _ "https://github.com/"), contains_append_r,
      (contains_append_r _ "/"), contains_append_r. reflexivity.
Qed.

Lemma matches_branch (owner repo branch : string) (segs : list string) :
  matches_pattern (web_url_branch owner repo branch segs) = true.
Proof.
  unfold matches_pattern, web_url_branch. apply andb_true_intro. split.
  - reflexivity.
  - apply (contains_append_r _ "https://github.com/"), contains_append_r,
      (contains_append_r _ "/"), contains_append_r. apply contains_here.
Qed.

Lemma split_refs_heads (owner repo branch : string) (segs : list string) :
  sep_free slash owner = true → sep_free slash repo = true →
  sep_free slash branch = true →
  Forall (λ p, sep_free slash p = true) segs → segs ≠ [] →
  split slash (web_url_refs_heads owner repo branch segs)
  = "https:" :: EmptyString :: "github.com" :: owner :: repo :: "raw" :: "refs"
      :: "heads" :: branch :: segs.
Proof.
  intros Ho Hr Hb Hs Hne. destruct segs as [|s segs']; [done |].
  rewrite <- (split_join slash
    ("https:" :: EmptyString :: "github.com" :: owner :: repo :: "raw" :: "refs"
       :: "heads" :: branch :: s :: segs'));
    [reflexivity | done | by repeat (apply Forall_cons_2; [done |])].
Qed.

Lemma split_branch (owner repo branch : string) (segs : list string) :
  sep_free slash owner = true → sep_free slash repo = true →
  sep_free slash branch = true →
  Forall (λ p, sep_free slash p = true) segs → segs ≠ [] →
  split slash (web_url_branch owner repo branch segs)
  = "https:" :: EmptyString :: "github.com" :: owner :: repo :: "raw" :: branch :: segs.
Proof.
  intros Ho Hr Hb Hs Hne. destruct segs as [|s segs']; [done |].
  rewrite <- (split_join slash
    ("https:" :: EmptyString :: "github.com" :: owner :: repo :: "raw" :: branch
       :: s :: segs'));
    [reflexivity | done | by repeat (apply Forall_cons_2; [done |])].
Qed.

(** C1, as stated: a URL that matches the pattern and has fewer than
    five path segments would be returned unchanged.  The code rewrites
    [https://github.com/user/repo/raw/main] (four path segments) and
    [https://github.com/raw/x] (two), so the statement fails. *)
Lemma few_path_segments_still_rewritten :
  ¬ (∀ url, matches_pattern url = true →
            (length (path_segments url) < 5)%nat →
            normalize_github_raw url = url).
Proof.
  intros H.
  specialize (H "https://github.com/user/repo/raw/main" eq_refl).
  vm_compute in H. specialize (H ltac:(lia)). discriminate H.
Qed.

Example two_path_segments_rewritten :
  normalize_github_raw "https://github.com/raw/x"
  = "https://raw.githubusercontent.com/raw/x/x/".
Proof. vm_compute. reflexivity. Qed.

(** C1 (amended): when [url.split("/")] has fewer than five components
    (scheme and empty component counted), [normalize_github_raw] returns
    the URL unchanged; the subscript that fails is caught. *)
Theorem normalize_few_components_unchanged (url : string) :
  (length (split slash url) < 5)%nat → normalize_github_raw url = url.
Proof.
  intros Hlen. unfold normalize_github_raw.
  destruct (matches_pattern url); [| reflexivity].
  unfold rewrite_parts. cbv zeta.
  rewrite (lookup_ge_None_2 (split slash url) 4) by lia.
  by destruct (split slash url !! 3%nat).
Qed.

Lemma normalize_few_components_unchanged_witness :
  matches_pattern "github.com/raw/x" = true
  ∧ normalize_github_raw "github.com/raw/x" = "github.com/raw/x".
Proof.
  split; [reflexivity |].
  apply (normalize_few_components_unchanged "github.com/raw/x").
  vm_compute. lia.
Defined.

(** C5, as stated: every URL of the second shape would map to
    [<owner>/<repo>/<branch>/<path>].  With owner [raw] the first
    component [raw] is the owner, and with branch [refs] followed by
    [heads] the URL is read as the first shape. *)
Lemma shapes_not_always_mapped :
  ¬ (∀ owner repo branch segs,
        sep_free slash owner = true → sep_free slash repo = true →
        sep_free slash branch = true →
        Forall (λ p, sep_free slash p = true) segs → segs ≠ [] →
        normalize_github_raw (web_url_branch owner repo branch segs)
        = raw_url owner repo branch segs).
Proof.
  intros H.
  specialize (H "raw" "repo" "main" ["f.mp4"] eq_refl eq_refl eq_refl).
  specialize (H ltac:(by repeat apply Forall_cons_2) ltac:(done)).
  vm_compute in H. discriminate H.
Qed.

Example owner_raw_misread :
  normalize_github_raw "https://github.com/raw/repo/raw/main/f.mp4"
  = "https://raw.githubusercontent.com/raw/repo/repo/raw/main/f.mp4".
Proof. vm_compute. reflexivity. Qed.

Example branch_refs_read_as_first_shape :
  normalize_github_raw (web_url_branch "u" "r" "refs" ["heads"; "x"; "y"])
  = raw_url "u" "r" "x" ["y"].
Proof. vm_compute. reflexivity. Qed.

(** C5 (amended): for an owner and a repo other than [raw], both shapes
    map to [https://raw.githubusercontent.com/<owner>/<repo>/<branch>/<path>];
    for the second shape the branch must not be [refs] followed by a
    segment [heads], which the code reads as the first shape. *)
Theorem normalize_recognized_shapes (owner repo branch : string) (segs : list string) :
  sep_free slash owner = true → sep_free slash repo = true →
  sep_free slash branch = true →
  Forall (λ p, sep_free slash p = true) segs → segs ≠ [] →
  owner ≠ "raw" → repo ≠ "raw" →
  normalize_github_raw (web_url_refs_heads owner repo branch segs)
  = raw_url owner repo branch segs
  ∧ (¬ (branch = "refs" ∧ head segs = Some "heads") →
     normalize_github_raw (web_url_branch owner repo branch segs)
     = raw_url owner repo branch segs).
Proof.
  intros Ho Hr Hb Hs Hne Hno Hnr. split.
  - unfold normalize_github_raw.
    rewrite matches_refs_heads, split_refs_heads by done.
    unfold rewrite_parts. cbn [lookup list_lookup mbind option_bind].
    rewrite !index_later, index_here by done.
    destruct segs as [|s segs']; [done |]. reflexivity.
  - intros Hamb. unfold normalize_github_raw.
    rewrite matches_branch, split_branch by done.
    unfold rewrite_parts. cbn [lookup list_lookup mbind option_bind].
    rewrite !index_later, index_here by done.
    destruct segs as [|s segs']; [done |].
    cbn [fmap option_fmap option_map mbind option_bind].
    unfold slice. cbn [Nat.add Nat.sub drop take].
    rewrite decide_False.
    + reflexivity.
    + intros [= -> ->]. by apply Hamb.
Qed.

Lemma normalize_recognized_shapes_witness :
  normalize_github_raw "https://github.com/user/repo/raw/refs/heads/main/file.mp4"
  = "https://raw.githubusercontent.com/user/repo/main/file.mp4"
  ∧ normalize_github_raw "https://github.com/user/repo/raw/main/sub/dir/file.mp4"
    = "https://raw.githubusercontent.com/user/repo/main/sub/dir/file.mp4".
Proof.
  split.
  - refine (proj1 (normalize_recognized_shapes "user" "repo" "main" ["file.mp4"]
                     eq_refl eq_refl eq_refl _ _ _ _));
      first [done | by repeat apply Forall_cons_2].
  - refine (proj2 (normalize_recognized_shapes "user" "repo" "main"
                     ["sub"; "dir"; "file.mp4"] eq_refl eq_refl eq_refl _ _ _ _) _);
      first [by intros [H _] | done | by repeat apply Forall_cons_2].
Defined.

(** C6, as stated: [normalize_github_raw] would be idempotent on every
    URL.  A path that itself holds [raw] and [github.com] makes the
    output match the pattern again, and it is rewritten a second time. *)
Lemma normalize_not_idempotent :
  ¬ (∀ u, normalize_github_raw (normalize_github_raw u) = normalize_github_raw u).
Proof.
  intros H. specialize (H "https://github.com/a/b/raw/raw/github.com").
  vm_compute in H. discriminate H.
Qed.

Example direct_url_rewritten :
  normalize_github_raw "https://raw.githubusercontent.com/u/r/main/raw/github.com.mp4"
  = "https://raw.githubusercontent.com/u/r/github.com.mp4/".
Proof. vm_compute. reflexivity. Qed.

Lemma count_raw_zero_no_raw (u : string) :
  count_raw u = 0%nat → "raw" ∉ split slash u.
Proof.
  unfold count_raw. intros H Hin.
  assert ("raw" ∈ filter (λ p, p = "raw") (split slash u)) as Hf
    by (by apply list_elem_of_filter).
  destruct (filter _ (split slash u)); [by apply not_elem_of_nil in Hf | done].
Qed.

(** A rewritten URL of an input with a single [raw], outside the owner
    and repo positions, has no component [raw] left. *)
Lemma rewritten_no_raw (parts : list string) (out : string) :
  Forall (λ p, sep_free slash p = true) parts →
  (length (filter (λ p, p = "raw") parts) ≤ 1)%nat →
  parts !! 3%nat ≠ Some "raw" → parts !! 4%nat ≠ Some "raw" →
  rewrite_parts parts = Some out → "raw" ∉ split slash out.
Proof.
  intros Hfree Hone H3 H4. unfold rewrite_parts.
  destruct (parts !! 3%nat) as [user|] eqn:Eu; [| done].
  destruct (parts !! 4%nat) as [repo|] eqn:Er; [| done].
  destruct (index "raw" parts) as [idx|] eqn:Ei; [| done].
  apply index_Some in Ei. cbn [mbind option_bind].
  assert (∀ k b, (idx < k)%nat → parts !! k = Some b → b ≠ "raw") as Hlater.
  { intros k b Hk Hb ->. pose proof (filter_once_unique _ _ _ _ Hone Ei Hb). lia. }
  assert (∀ k, (idx < k)%nat → "raw" ∉ split slash (join "/" (drop k parts))) as Hpath.
  { intros k Hk Hin. apply elem_of_split_join in Hin as [Hin | ?]; [| done |].
    - apply list_elem_of_lookup in Hin as [j Hj]. rewrite lookup_drop in Hj.
      by apply (Hlater (k + j)%nat "raw"); [lia | |].
    - by apply Forall_drop. }
  assert (∀ i x, parts !! i = Some x → sep_free slash x = true) as Hsf
    by (intros i x Hx; exact (Forall_lookup_1 _ parts i x Hfree Hx)).
  assert (∀ branch path,
            (∃ k, (idx < k)%nat ∧ parts !! k = Some branch) →
            "raw" ∉ split slash path →
            "raw" ∉ split slash ("https://raw.githubusercontent.com/" +:+ user
              +:+ "/" +:+ repo +:+ "/" +:+ branch +:+ "/" +:+ path)) as Hout.
  { intros branch path (k & Hk & Hb) Hp.
    rewrite split_rewritten by eauto.
    rewrite !not_elem_of_cons. repeat split; try done; try congruence.
    intros <-. by eapply Hlater. }
  destruct (decide _) as [_|_].
  - destruct (parts !! (idx + 3)%nat) as [branch|] eqn:Eb; [| done].
    cbn [mbind option_bind fst snd]. intros [= <-].
    apply Hout; [exists (idx + 3)%nat; split; [lia | done] | apply Hpath; lia].
  - destruct (parts !! (idx + 1)%nat) as [branch|] eqn:Eb; [| done].
    cbn [mbind option_bind fst snd]. intros [= <-].
    apply Hout; [exists (idx + 1)%nat; split; [lia | done] | apply Hpath; lia].
Qed.

(** C6 (amended): normalising twice is normalising once for every URL
    whose components hold [raw] at most once and not in the owner or repo
    position; and a URL with no component [raw], such as a direct
    raw-content URL of a file outside any [raw] directory, is returned
    unchanged. *)
Theorem normalize_idempotent_single_raw (u : string) :
  ((count_raw u ≤ 1)%nat →
   split slash u !! 3%nat ≠ Some "raw" → split slash u !! 4%nat ≠ Some "raw" →
   normalize_github_raw (normalize_github_raw u) = normalize_github_raw u)
  ∧ (count_raw u = 0%nat → normalize_github_raw u = u).
Proof.
  split.
  - intros Hone H3 H4. unfold normalize_github_raw at 2 3.
    destruct (matches_pattern u) eqn:Em.
    + cbv zeta. destruct (rewrite_parts (split slash u)) as [out|] eqn:Eo; simpl.
      * unfold normalize_github_raw.
        rewrite matches_pattern_no_raw; [reflexivity |].
        eapply rewritten_no_raw; [apply split_parts_sep_free | exact Hone | done..].
      * unfold normalize_github_raw. by rewrite Em, Eo.
    + unfold normalize_github_raw. by rewrite Em.
  - intros Hzero. unfold normalize_github_raw.
    by rewrite matches_pattern_no_raw by by apply count_raw_zero_no_raw.
Qed.

Lemma normalize_idempotent_single_raw_witness :
  normalize_github_raw
    (normalize_github_raw "https://github.com/user/repo/raw/main/sub/dir/file.mp4")
  = normalize_github_raw "https://github.com/user/repo/raw/main/sub/dir/file.mp4"
  ∧ normalize_github_raw "https://raw.githubusercontent.com/user/repo/main/file.mp4"
    = "https://raw.githubusercontent.com/user/repo/main/file.mp4".
Proof.
  split.
  - refine (proj1 (normalize_idempotent_single_raw
                     "https://github.com/user/repo/raw/main/sub/dir/file.mp4") _ _ _).
    + vm_compute. lia.
    + vm_compute. discriminate.
    + vm_compute. discriminate.
  - refine (proj2 (normalize_idempotent_single_raw
                     "https://raw.githubusercontent.com/user/repo/main/file.mp4") _).
    vm_compute. reflexivity.
Defined.

End NormalizerFacts.

(** ** Prober and remote client *)

(** Unfold the monad down to the network calls. *)
Ltac step_prog :=
  cbv [mbind mret Http.prog_bind Http.prog_ret Http.bind Http.ret
       Script.call Script.call_or_raise Script.fail_with Http.emit Http.print
       Http.sleep Http.sys_exit Http.raise negb].

Tactic Notation "feed" constr(H) := rewrite H; step_prog.

Module ClientFacts.
Import PyStr PyStrFacts Http Script.

Section WithWorld.
Context (hmac_sha256_hex : string → string → string).
Context (py_repr : jval → string).
Context (net : nat → request → http_result).
Context (ACCESS_TOKEN IG_USER_ID : string) (APP_SECRET : option string).

Local Abbreviation params_with_auth :=
  (params_with_auth hmac_sha256_hex ACCESS_TOKEN APP_SECRET).
Local Abbreviation create_request :=
  (create_request hmac_sha256_hex ACCESS_TOKEN IG_USER_ID APP_SECRET).
Local Abbreviation publish_request :=
  (publish_request hmac_sha256_hex py_repr ACCESS_TOKEN IG_USER_ID APP_SECRET).
Local Abbreviation permalink_request :=
  (permalink_request hmac_sha256_hex py_repr ACCESS_TOKEN APP_SECRET).
Local Abbreviation status_request := (status_request py_repr ACCESS_TOKEN).
Local Abbreviation create_reel :=
  (create_reel hmac_sha256_hex net ACCESS_TOKEN IG_USER_ID APP_SECRET).
Local Abbreviation get_status := (get_status py_repr net ACCESS_TOKEN).
Local Abbreviation check_video_url_public := (check_video_url_public net).

(** *** Prober *)

Lemma prober_head_raises (url e : string) (n : nat) :
  net n (head_probe url) = Raised e →
  check_video_url_public url n
  = (Val (false, "HEAD request failed: " +:+ e), [EvRequest (head_probe url)], S n).
Proof.
  intros H. unfold Script.check_video_url_public. step_prog. by feed H.
Qed.

Lemma prober_head_status (url : string) (r : response) (n : nat) :
  net n (head_probe url) = Returned r → 400 ≤ status_code r →
  check_video_url_public url n
  = (Val (false, "URL returned HTTP " +:+ pretty (status_code r)),
     [EvRequest (head_probe url)], S n).
Proof.
  intros H Hs. unfold Script.check_video_url_public. step_prog.
  feed H. by rewrite (proj2 (Z.leb_le _ _) Hs).
Qed.

Example prober_404_reason :
  "URL returned HTTP " +:+ pretty (404 : Z) = "URL returned HTTP 404".
Proof. vm_compute. reflexivity. Qed.


(** *** Request signing *)

Lemma params_signed (secret : string) (extra : gmap string string) :
  APP_SECRET = Some secret → secret ≠ EmptyString →
  hmac_sha256_hex secret ACCESS_TOKEN ≠ EmptyString →
  extra !! "appsecret_proof" = None →
  params_with_auth (Some extra) !! "appsecret_proof"
  = Some (hmac_sha256_hex secret ACCESS_TOKEN).
Proof.
  intros -> Hs Hp He. unfold Script.params_with_auth, appsecret_proof.
  rewrite (proj2 (String.eqb_neq _ _) Hs), (proj2 (String.eqb_neq _ _) Hp).
  case_bool_decide.
  - by rewrite lookup_insert_eq.
  - by rewrite lookup_union_r, lookup_insert_eq.
Qed.

(** [create_reel], [publish_reel] and [get_permalink] send the proof. *)
Lemma three_operations_signed (secret : string) :
  APP_SECRET = Some secret → secret ≠ EmptyString →
  hmac_sha256_hex secret ACCESS_TOKEN ≠ EmptyString →
  ∀ video_url caption id,
    let proof := Some (hmac_sha256_hex secret ACCESS_TOKEN) in
    rq_fields (create_request video_url caption) !! "appsecret_proof" = proof
    ∧ rq_fields (publish_request id) !! "appsecret_proof" = proof
    ∧ rq_fields (permalink_request id) !! "appsecret_proof" = proof.
Proof.
  intros Hsec Hs Hp video_url caption id proof. split; [| split].
  all: cbv [Script.create_request Script.publish_request
              Script.permalink_request rq_fields].
  all: apply params_signed; [done..|].
  all: by rewrite ?lookup_insert_ne, ?lookup_singleton_ne, ?lookup_empty by done.
Qed.

(** C2, where the code departs from it: whatever the secret, the status
    request carries the access token and no [appsecret_proof], and it is
    the one request [get_status] sends. *)
Theorem get_status_sends_no_proof (creation_id : jval) (n : nat) :
  rq_fields (status_request creation_id) !! "appsecret_proof" = None
  ∧ rq_fields (status_request creation_id) !! "access_token" = Some ACCESS_TOKEN
  ∧ requests (get_status creation_id n).1.2 = [status_request creation_id].
Proof.
  split; [| split].
  - cbv [Script.status_request rq_fields].
    by rewrite lookup_insert_ne, lookup_singleton_ne.
  - cbv [Script.status_request rq_fields].
    by rewrite lookup_insert_ne, lookup_singleton_eq.
  - unfold Script.get_status. step_prog.
    destruct (net n _) as [e|r]; [reflexivity |].
    by destruct (resp_json r).
Qed.

(** *** Responses that are not JSON *)

Lemma safe_json_envelope (r : response) :
  resp_json r = None →
  has_key "error" (safe_json r) = true
  ∧ safe_json r !! "http_status" = Some (JInt (status_code r))
  ∧ safe_json r !! "error"
    = Some (JObj {[ "message" :=
                      JStr ("Non-JSON response (" +:+ pretty (status_code r)
                              +:+ "): " +:+ truncate 500 (text r)) ]}).
Proof.
  intros H. unfold safe_json, has_key. rewrite H.
  rewrite lookup_insert_eq, lookup_insert_ne, lookup_singleton_eq by done.
  split; [| by split]. apply bool_decide_eq_true. by eexists.
Qed.

Lemma truncate_length (k : nat) (s : string) :
  (String.length (truncate k s) ≤ k)%nat.
Proof.
  unfold truncate. revert s. induction k as [|k IH]; intros [|c s]; simpl; try lia.
  specialize (IH s). lia.
Qed.

(** The three operations that go through [safe_json] hand the envelope
    to the controller as an ordinary value. *)
Lemma create_reel_non_json (video_url caption : string) (r : response) (n : nat) :
  net n (create_request video_url caption) = Returned r →
  create_reel video_url caption n
  = (Val (safe_json r), [EvRequest (create_request video_url caption)], S n).
Proof.
  intros H. unfold Script.create_reel. step_prog. by feed H.
Qed.

(** C3, where the code departs from it: [get_status] calls [r.json()]
    outside any [try], so a body that is not JSON raises instead of
    coming back as an envelope. *)
Theorem get_status_non_json_raises (creation_id : jval) (r : response) (n : nat) :
  net n (status_request creation_id) = Returned r →
  resp_json r = None →
  get_status creation_id n
  = (Stop (Uncaught "JSONDecodeError"), [EvRequest (status_request creation_id)], S n).
Proof.
  intros H Hj. unfold Script.get_status. step_prog. feed H. by feed Hj.
Qed.

End WithWorld.

Import Scenario.

Import Scenario2.


Example fallback_not_found_reason :
  (check_video_url_public not_found_world sample_url 0%nat).1.1
  = Val (false, "Could not validate video content-type: 404 Client Error: Not Found for url: https://example.com/clip.mp4").
Proof. vm_compute. reflexivity. Qed.


Example prober_no_content_type :
  (check_video_url_public (λ _ _, Returned (page None)) sample_url 0%nat).1.1
  = Val (false, "Unexpected Content-Type: N/A").
Proof. reflexivity. Qed.

Lemma get_status_non_json_raises_witness :
  get_status sample_repr gateway_world "token" (JStr "123") 2%nat
  = (Stop (Uncaught "JSONDecodeError"),
     [EvRequest (status_request sample_repr "token" (JStr "123"))], 3%nat).
Proof.
  apply (get_status_non_json_raises sample_repr gateway_world "token"
           (JStr "123") bad_gateway 2%nat); reflexivity.
Defined.

(** With a secret set, the creation request is signed and the status
    request is not. *)
Example signing_in_a_run :
  map (λ rq, rq_fields rq !! "appsecret_proof")
      (requests (run_script happy_world 30).2)
  = [None; Some "hmac(s3cret,token)"; None;
     Some "hmac(s3cret,token)"; Some "hmac(s3cret,token)"].
Proof. vm_compute. reflexivity. Qed.

(** A gateway page on a status poll ends the run with a traceback. *)
Example gateway_page_on_status_poll :
  (run_script gateway_world 30).1 = Stop (Uncaught "JSONDecodeError").
Proof. vm_compute. reflexivity. Qed.

End ClientFacts.

(** ** Job lifecycle controller *)

Module ControllerFacts.
Import PyStr Http Script.

(** *** Programs that finish *)

Lemma finishes_ret {A} (a : A) : finishes (mret a).
Proof. by intros n. Qed.

Lemma finishes_bind {A B} (m : prog A) (k : A → prog B) :
  finishes m → (∀ a, finishes (k a)) → finishes (m ≫= k).
Proof.
  intros Hm Hk n. specialize (Hm n). step_prog.
  destruct (m n) as [[[a|o|] tr] n']; [| done..].
  specialize (Hk a n'). by destruct (k a n') as [[res tr'] n''].
Qed.

Lemma finishes_emit (e : event) : finishes (emit e).
Proof. by intros n. Qed.

Lemma finishes_exit {A} (code : Z) : finishes (@sys_exit A code).
Proof. by intros n. Qed.

Lemma finishes_raise {A} (e : string) : finishes (@raise A e).
Proof. by intros n. Qed.

Lemma finishes_call net (rq : request) : finishes (call net rq).
Proof. by intros n. Qed.

(** Take a program apart along its binds, branches and primitives. *)
Ltac finishes_steps :=
  repeat first
    [ apply finishes_ret | apply finishes_emit | apply finishes_exit
    | apply finishes_raise | apply finishes_call
    | apply finishes_bind; [| intros ?]
    | progress cbv zeta
    | match goal with
      | |- finishes (match ?x with _ => _ end) => destruct x
      end ].

(** *** Timers *)

Lemma int_times_1_5_spec (b : Z) : 0 ≤ b → int_times_1_5 b = 3 * b / 2.
Proof. intros H. unfold int_times_1_5. apply Z.quot_div_nonneg; lia. Qed.

Lemma advance_backoff_bounds (t : timers) :
  5 ≤ backoff t ≤ 60 →
  5 ≤ backoff (advance t) ≤ 60 ∧ backoff t ≤ backoff (advance t).
Proof.
  intros H. unfold advance, max_backoff. cbn [backoff].
  rewrite int_times_1_5_spec by lia.
  pose proof (Z.div_mod (3 * backoff t) 2 ltac:(lia)).
  pose proof (Z.mod_pos_bound (3 * backoff t) 2 ltac:(lia)). lia.
Qed.

Lemma timers_at_succ (n : nat) : timers_at (S n) = advance (timers_at n).
Proof. reflexivity. Qed.

Lemma sleep_at_bounds (n : nat) : 5 ≤ sleep_at n ≤ 60.
Proof.
  unfold sleep_at. induction n as [|n IH]; [by vm_compute |].
  rewrite timers_at_succ. by apply advance_backoff_bounds.
Qed.

Lemma sleep_at_mono (n : nat) : sleep_at n ≤ sleep_at (S n).
Proof.
  unfold sleep_at. rewrite timers_at_succ.
  apply advance_backoff_bounds, sleep_at_bounds.
Qed.

Lemma sleep_at_capped (k : nat) : sleep_at (7 + k) = 60.
Proof.
  unfold sleep_at. induction k as [|k IH]; [by vm_compute |].
  replace (7 + S k)%nat with (S (7 + k)) by lia.
  rewrite timers_at_succ. unfold advance. cbn [backoff]. rewrite IH.
  by vm_compute.
Qed.

(** The closed form of the interval sequence. *)
Lemma sleep_at_closed_form (n : nat) :
  sleep_at n = nth n [5; 7; 10; 15; 22; 33; 49] 60.
Proof.
  destruct (decide (n < 7)%nat) as [Hlt|Hge].
  - do 7 (destruct n as [|n]; [by vm_compute |]). lia.
  - replace n with (7 + (n - 7))%nat by lia. rewrite sleep_at_capped.
    by rewrite nth_overflow by (simpl; lia).
Qed.

Lemma loop_head_bounds (t : timers) :
  loop_head t →
  5 ≤ backoff t ≤ 60
  ∧ backoff t ≤ backoff (advance t)
  ∧ 0 ≤ waited t < 900
  ∧ (max_wait_sec ≤ waited (advance t) → 900 ≤ waited (advance t) ≤ 959).
Proof.
  intros H.
  assert (5 ≤ backoff t ≤ 60 ∧ 0 ≤ waited t < 900) as [Hb Hw].
  { induction H as [|t H [IHb IHw] Hlt]; [by vm_compute |].
    split; [by apply advance_backoff_bounds |].
    unfold max_wait_sec in Hlt. unfold advance in *. cbn [waited] in *. lia. }
  split; [done |]. split; [by apply advance_backoff_bounds |]. split; [done |].
  unfold max_wait_sec, advance. cbn [waited]. lia.
Qed.

(** C10: at every loop head the interval lies between 5 and 60 and the
    next one is no smaller; the time waited is below 900 when the status
    is polled; and when the ceiling check fires, the time waited is
    between 900 and 959. *)
Theorem loop_head_invariant (t : timers) :
  loop_head t →
  5 ≤ backoff t ≤ 60
  ∧ backoff t ≤ backoff (advance t)
  ∧ 0 ≤ waited t < 900
  ∧ (max_wait_sec ≤ waited (advance t) → 900 ≤ waited (advance t) ≤ 959).
Proof. exact (loop_head_bounds t). Qed.

Lemma loop_head_invariant_witness :
  5 ≤ backoff timers0 ≤ 60
  ∧ backoff timers0 ≤ backoff (advance timers0)
  ∧ 0 ≤ waited timers0 < 900
  ∧ (max_wait_sec ≤ waited (advance timers0) → 900 ≤ waited (advance timers0) ≤ 959).
Proof. exact (loop_head_invariant timers0 head_entry). Defined.

(** The loop heads are the first twenty iterations. *)
Lemma waited_at_20 : waited (timers_at 20) = 921.
Proof. by vm_compute. Qed.

Lemma waited_at_below (k : nat) : (k ≤ 19)%nat → waited (timers_at k) < max_wait_sec.
Proof.
  intros H. do 20 (destruct k as [|k]; [by vm_compute |]). lia.
Qed.

Lemma loop_head_timers_at (k : nat) : (k ≤ 19)%nat → loop_head (timers_at k).
Proof.
  induction k as [|k IH]; intros H; [apply head_entry |].
  rewrite timers_at_succ. apply head_again; [apply IH; lia |].
  rewrite <- timers_at_succ. by apply waited_at_below.
Qed.

Section WithWorld.
Context (hmac_sha256_hex : string → string → string).
Context (py_repr : jval → string).
Context (net : nat → request → http_result).
Context (ACCESS_TOKEN IG_USER_ID : string) (APP_SECRET : option string).

Local Abbreviation status_request := (status_request py_repr ACCESS_TOKEN).
Local Abbreviation publish_request :=
  (publish_request hmac_sha256_hex py_repr ACCESS_TOKEN IG_USER_ID APP_SECRET).
Local Abbreviation permalink_request :=
  (permalink_request hmac_sha256_hex py_repr ACCESS_TOKEN APP_SECRET).
Local Abbreviation status_code_of := (status_code_of py_repr).
Local Abbreviation poll_loop := (poll_loop py_repr net ACCESS_TOKEN).
Local Abbreviation publish_and_resolve :=
  (publish_and_resolve hmac_sha256_hex py_repr net ACCESS_TOKEN IG_USER_ID APP_SECRET).
Local Abbreviation main :=
  (main hmac_sha256_hex py_repr net ACCESS_TOKEN IG_USER_ID APP_SECRET).

(** One turn of the loop, case by case. *)
Lemma poll_loop_unfold (fuel : nat) (cid : jval) (t : timers) (n : nat) :
  poll_loop (S fuel) cid t n =
  let rq := EvRequest (status_request cid) in
  match net n (status_request cid) with
  | Raised e => (Stop (Uncaught e), [rq], S n)
  | Returned r =>
      match resp_json r with
      | None => (Stop (Uncaught "JSONDecodeError"), [rq], S n)
      | Some status =>
          let seen := EvPrint (LStatus status) in
          if has_key "error" status then
            match explain_error py_repr "Status failed" status with
            | Some _ =>
                (Stop (Exit 1), [rq; seen; EvPrint (LStatusFailed status)], S n)
            | None => (Stop (Uncaught "AttributeError"), [rq; seen], S n)
            end
          else if String.eqb (status_code_of status) "FINISHED" then
            (Val tt, [rq; seen], S n)
          else if is_error_code (status_code_of status) then
            (Stop (Exit 1), [rq; seen; EvPrint LProcessingFailed], S n)
          else if max_wait_sec <=? waited (advance t) then
            (Stop (Exit 1), [rq; seen; EvSleep (backoff t); EvPrint LTimedOut], S n)
          else
            let '(res, tr, n') := poll_loop fuel cid (advance t) (S n) in
            (res, rq :: seen :: EvSleep (backoff t) :: tr, n')
      end
  end.
Proof.
  cbn [Script.poll_loop]. unfold get_status. step_prog.
  destruct (net n _) as [e|r]; [reflexivity |]. step_prog.
  destruct (resp_json r) as [status|]; [| reflexivity]. step_prog.
  destruct (has_key "error" status);
    [by destruct (explain_error py_repr "Status failed" status) |]. step_prog.
  destruct (String.eqb _ "FINISHED"); [reflexivity |]. step_prog.
  destruct (is_error_code _); [reflexivity |]. step_prog.
  destruct (max_wait_sec <=? _); [reflexivity |]. step_prog.
  by destruct (Script.poll_loop _ _ _ fuel cid _ (S n)) as [[res tr] n'].
Qed.

(** Twenty turns are always enough: the loop cannot run out of fuel. *)
Lemma poll_loop_total (fuel : nat) (cid : jval) (k n : nat) :
  (k ≤ 19)%nat → (20 ≤ k + fuel)%nat →
  (poll_loop fuel cid (timers_at k) n).1.1 ≠ OutOfFuel.
Proof.
  revert k n. induction fuel as [|fuel IH]; intros k n Hk Hf; [lia |].
  rewrite poll_loop_unfold. cbv zeta.
  destruct (net n _) as [e|r]; [done |].
  destruct (resp_json r) as [status|]; [| done].
  destruct (has_key "error" status);
    [by destruct (explain_error py_repr "Status failed" status) |].
  destruct (String.eqb _ "FINISHED"); [done |].
  destruct (is_error_code _); [done |].
  destruct (max_wait_sec <=? _) eqn:Hc; [done |].
  rewrite <- timers_at_succ in *.
  assert (S k ≤ 19)%nat as Hk'.
  { destruct (decide (S k ≤ 19)%nat) as [|Hn]; [done |].
    assert (k = 19%nat) as -> by lia. by vm_compute in Hc. }
  specialize (IH (S k) (S n) Hk' ltac:(lia)).
  by destruct (Script.poll_loop _ _ _ fuel cid _ (S n)) as [[res tr] n'].
Qed.

(** The intervals slept from iteration [k] on follow [sleep_at]. *)
Lemma sleeps_from (fuel : nat) (cid : jval) (k n : nat) :
  let tr := (poll_loop fuel cid (timers_at k) n).1.2 in
  sleeps tr = map sleep_at (seq k (length (sleeps tr))).
Proof.
  revert k n. induction fuel as [|fuel IH]; intros k n; [reflexivity |].
  cbv zeta. rewrite poll_loop_unfold. cbv zeta.
  destruct (net n _) as [e|r]; [reflexivity |].
  destruct (resp_json r) as [status|]; [| reflexivity].
  destruct (has_key "error" status);
    [by destruct (explain_error py_repr "Status failed" status) |].
  destruct (String.eqb _ "FINISHED"); [reflexivity |].
  destruct (is_error_code _); [reflexivity |].
  destruct (max_wait_sec <=? _); [reflexivity |].
  rewrite <- timers_at_succ. specialize (IH (S k) (S n)). cbv zeta in IH.
  destruct (Script.poll_loop _ _ _ fuel cid _ (S n)) as [[res tr] n'].
  cbn [fst snd] in *. cbn [sleeps omap list_omap length seq map].
  fold (sleeps tr). by rewrite <- IH.
Qed.

(** C4: the intervals are 5, 7, 10, 15, 22, 33, 49 and then 60 for good,
    and the sleeps of any run of the loop are an initial stretch of them. *)
Theorem backoff_sequence :
  (∀ i, sleep_at i = nth i [5; 7; 10; 15; 22; 33; 49; 60] 60)
  ∧ (∀ fuel cid n,
       let slept := sleeps (poll_loop fuel cid timers0 n).1.2 in
       slept = map sleep_at (seq 0 (length slept))).
Proof.
  split.
  - intros i. rewrite sleep_at_closed_form.
    do 8 (destruct i as [|i]; [reflexivity |]). by destruct i.
  - intros fuel cid n. apply (sleeps_from fuel cid 0 n).
Qed.

(** The same invariant read off the trace of a run: before every status
    request fewer than 900 seconds were slept, and a run that prints the
    timeout slept between 900 and 959 seconds. *)
Lemma trace_waited_from (fuel : nat) (cid : jval) (t : timers) (n : nat) :
  loop_head t →
  let tr := (poll_loop fuel cid t n).1.2 in
  (∀ pre rq post, tr = (pre ++ EvRequest rq :: post)%list →
                  waited t + total (sleeps pre) < 900)
  ∧ (EvPrint LTimedOut ∈ tr → 900 ≤ waited t + total (sleeps tr) ≤ 959).
Proof.
  revert t n. induction fuel as [|fuel IH]; intros t n Ht; cbv zeta.
  { split; [by intros [|? ?] ? ? | by intros ?%elem_of_nil]. }
  destruct (loop_head_bounds t Ht) as (Hb & _ & Hw & Hceil).
  assert (∀ (l : list event) pre rq post,
            EvRequest (status_request cid) :: l = (pre ++ EvRequest rq :: post)%list →
            Forall (λ e, ∀ q, e ≠ EvRequest q) l →
            waited t + total (sleeps pre) < 900) as Hlast.
  { intros l [|e pre] rq post Heq Hl; [simpl; lia |].
    injection Heq as _ ->. apply Forall_app in Hl as [_ Hl].
    inversion_clear Hl as [|? ? Hrq _]. by destruct (Hrq rq). }
  assert (∀ l : list event,
            Forall (λ e, ∀ q, e ≠ EvRequest q) l → EvPrint LTimedOut ∉ l →
            (∀ pre rq post,
               EvRequest (status_request cid) :: l = (pre ++ EvRequest rq :: post)%list →
               waited t + total (sleeps pre) < 900)
            ∧ (EvPrint LTimedOut ∈ EvRequest (status_request cid) :: l →
               900 ≤ waited t + total (sleeps (EvRequest (status_request cid) :: l)) ≤ 959))
    as Hstop.
  { intros l Hl Hno. split; [intros pre rq post Heq; by eapply Hlast |].
    rewrite elem_of_cons. by intros [|]. }
  rewrite poll_loop_unfold. cbv zeta.
  destruct (net n _) as [e|r];
    [apply (Hstop []); [constructor | by intros ?%elem_of_nil] |].
  destruct (resp_json r) as [status|];
    [| apply (Hstop []); [constructor | by intros ?%elem_of_nil]].
  destruct (has_key "error" status).
  { destruct (explain_error py_repr "Status failed" status).
    - apply (Hstop [_; _]); [by repeat constructor |].
      rewrite !elem_of_cons. by intros [|[|?%elem_of_nil]].
    - apply (Hstop [_]); [by repeat constructor |].
      rewrite !elem_of_cons. by intros [|?%elem_of_nil]. }
  destruct (String.eqb _ "FINISHED").
  { apply (Hstop [_]); [by repeat constructor |].
    rewrite !elem_of_cons. by intros [|?%elem_of_nil]. }
  destruct (is_error_code _).
  { apply (Hstop [_; _]); [by repeat constructor |].
    rewrite !elem_of_cons. by intros [|[|?%elem_of_nil]]. }
  destruct (max_wait_sec <=? _) eqn:Hc.
  { cbn [fst snd]. split;
      [intros pre rq post Heq; eapply Hlast; [exact Heq | by repeat constructor] |].
    intros _. apply Z.leb_le in Hc. specialize (Hceil Hc).
    unfold advance in Hceil. cbn [waited] in Hceil.
    cbn [sleeps omap list_omap total foldr]. lia. }
  apply Z.leb_gt in Hc.
  destruct (IH (advance t) (S n) (head_again t Ht Hc)) as [IHreq IHout].
  destruct (Script.poll_loop _ _ _ fuel cid _ (S n)) as [[res tr] n'].
  cbn [fst snd] in *. split.
  - intros [|e1 [|e2 [|e3 pre]]] rq post Heq; [simpl; lia | done.. |].
    injection Heq as <- <- <- ->. specialize (IHreq pre rq post eq_refl).
    unfold advance in IHreq. cbn [waited] in IHreq.
    cbn [sleeps omap list_omap total foldr]. fold (sleeps pre).
    fold (total (sleeps pre)). lia.
  - rewrite !elem_of_cons. intros [|[|[|Hin]]]; try done.
    specialize (IHout Hin). unfold advance in IHout. cbn [waited] in IHout.
    cbn [sleeps omap list_omap total foldr]. fold (sleeps tr).
    fold (total (sleeps tr)). lia.
Qed.

Lemma trace_waited (fuel : nat) (cid : jval) (n : nat) :
  let tr := (poll_loop fuel cid timers0 n).1.2 in
  Forall (λ s, 5 ≤ s ≤ 60) (sleeps tr)
  ∧ (∀ pre rq post, tr = (pre ++ EvRequest rq :: post)%list →
                    total (sleeps pre) < 900)
  ∧ (EvPrint LTimedOut ∈ tr → 900 ≤ total (sleeps tr) ≤ 959).
Proof.
  cbv zeta. split.
  - pose proof (sleeps_from fuel cid 0 n) as H. cbv zeta in H.
    change (timers_at 0) with timers0 in H. rewrite H.
    apply Forall_map, Forall_forall. intros i _. apply sleep_at_bounds.
  - exact (trace_waited_from fuel cid timers0 n head_entry).
Qed.

(** *** Dispatch on the status code *)

Lemma publish_and_resolve_starts (cid : jval) (n : nat) :
  ∃ res rest n',
    publish_and_resolve cid n
    = (res, EvPrint LPublishing :: EvRequest (publish_request cid) :: rest, n').
Proof.
  unfold Script.publish_and_resolve, publish_reel. step_prog.
  destruct (net n _) as [e|r]; [by eexists _, _, _ |]. step_prog.
  destruct (has_key "error" (safe_json r));
    [destruct (explain_error _ _ _); by eexists _, _, _ |]. step_prog.
  destruct (truthy _); [| by eexists _, _, _]. unfold get_permalink. step_prog.
  destruct (net (S n) _) as [e|r']; by eexists _, _, _.
Qed.

(** Sequencing after the loop: a stopped loop stops the run, a finished
    loop hands over to what follows. *)
Lemma seq_after_stop {A} (m : prog unit) (k : prog A) (n : nat)
    (o : outcome) (tr : list event) (n' : nat) :
  m n = (Stop o, tr, n') → (m ;; k) n = (Stop o, tr, n').
Proof. intros H. step_prog. by rewrite H. Qed.

Lemma seq_after_val {A} (m : prog unit) (k : prog A) (n : nat)
    (tr : list event) (n' : nat) :
  m n = (Val tt, tr, n') →
  (m ;; k) n = let '(res, tr', n'') := k n' in (res, (tr ++ tr')%list, n'').
Proof. intros H. step_prog. rewrite H. by destruct (k n') as [[res tr'] n'']. Qed.

(** C8 (amended): for a status answer without an error envelope, with
    the code read after upper-casing: FINISHED ends the polling and the
    run goes on with the publish request; ERROR and ERROR_UPLOADING end
    the run with exit code 1 with no further request; any other code
    sleeps and polls again as long as the time waited stays below the
    ceiling, and ends the run with exit code 1 once it reaches it. *)
Theorem poll_dispatch (fuel : nat) (cid : jval) (t : timers) (n : nat)
    (r : response) (status : gmap string jval) :
  net n (status_request cid) = Returned r →
  resp_json r = Some status →
  has_key "error" status = false →
  let code := status_code_of status in
  let seen := [EvRequest (status_request cid); EvPrint (LStatus status)] in
  (code = "FINISHED" →
   poll_loop (S fuel) cid t n = (Val tt, seen, S n)
   ∧ ∃ res rest n',
       (poll_loop (S fuel) cid t ;; publish_and_resolve cid) n
       = (res, (seen ++ EvPrint LPublishing
                  :: EvRequest (publish_request cid) :: rest)%list, n'))
  ∧ (code = "ERROR" ∨ code = "ERROR_UPLOADING" →
     (poll_loop (S fuel) cid t ;; publish_and_resolve cid) n
     = (Stop (Exit 1), (seen ++ [EvPrint LProcessingFailed])%list, S n))
  ∧ (code ≠ "FINISHED" → code ≠ "ERROR" → code ≠ "ERROR_UPLOADING" →
     (waited (advance t) < max_wait_sec →
      poll_loop (S fuel) cid t n
      = let '(res, tr, n') := poll_loop fuel cid (advance t) (S n) in
        (res, (seen ++ EvSleep (backoff t) :: tr)%list, n'))
     ∧ (max_wait_sec ≤ waited (advance t) →
        (poll_loop (S fuel) cid t ;; publish_and_resolve cid) n
        = (Stop (Exit 1),
           (seen ++ [EvSleep (backoff t); EvPrint LTimedOut])%list, S n))).
Proof.
  intros Hnet Hjson Herr code seen.
  pose proof (poll_loop_unfold fuel cid t n) as Hloop. cbv zeta in Hloop.
  rewrite Hnet, Hjson, Herr in Hloop. fold code in Hloop.
  split; [| split].
  - intros Hc. rewrite Hc, String.eqb_refl in Hloop. split; [exact Hloop |].
    rewrite (seq_after_val _ _ _ _ _ Hloop).
    destruct (publish_and_resolve_starts cid (S n)) as (res & rest & n' & ->).
    by eexists _, _, _.
  - intros Hc. apply seq_after_stop. rewrite Hloop.
    by destruct Hc as [-> | ->].
  - intros Hf He Hu.
    rewrite (proj2 (String.eqb_neq _ _) Hf) in Hloop.
    assert (is_error_code code = false) as Hie.
    { unfold is_error_code.
      by rewrite (proj2 (String.eqb_neq _ _) He), (proj2 (String.eqb_neq _ _) Hu). }
    rewrite Hie in Hloop. split.
    + intros Hw. by rewrite (proj2 (Z.leb_gt _ _) Hw) in Hloop.
    + intros Hw. apply seq_after_stop.
      by rewrite (proj2 (Z.leb_le _ _) Hw) in Hloop.
Qed.

(** *** Publishing *)

(** C9: a publish answer with neither an error envelope nor an id makes
    the script print its warning and return, without asking for the
    permalink: the run ends with exit status 0. *)
Theorem publish_without_id (cid : jval) (n : nat) (r : response) :
  net n (publish_request cid) = Returned r →
  has_key "error" (safe_json r) = false →
  truthy (dict_get "id" (safe_json r)) = false →
  publish_and_resolve cid n
  = (Val tt,
     [EvPrint LPublishing; EvRequest (publish_request cid);
      EvPrint (LPublishResponse (safe_json r)); EvPrint LNoMediaId], S n)
  ∧ exit_status (publish_and_resolve cid n).1.1 = Some (Exit 0)
  ∧ ∀ fuel t n0 tr,
      poll_loop fuel cid t n0 = (Val tt, tr, n) →
      (poll_loop fuel cid t ;; publish_and_resolve cid) n0
      = (Val tt,
         (tr ++ [EvPrint LPublishing; EvRequest (publish_request cid);
                 EvPrint (LPublishResponse (safe_json r)); EvPrint LNoMediaId])%list,
         S n).
Proof.
  intros Hnet Herr Hid.
  assert (publish_and_resolve cid n
          = (Val tt,
             [EvPrint LPublishing; EvRequest (publish_request cid);
              EvPrint (LPublishResponse (safe_json r)); EvPrint LNoMediaId], S n))
    as Hrun.
  { unfold Script.publish_and_resolve, publish_reel. step_prog.
    feed Hnet. feed Herr. by feed Hid. }
  split; [exact Hrun |]. split; [by rewrite Hrun |].
  intros fuel t n0 tr Hloop. by rewrite (seq_after_val _ _ _ _ _ Hloop), Hrun.
Qed.

(** *** The whole run *)

Lemma publish_and_resolve_finishes (cid : jval) : finishes (publish_and_resolve cid).
Proof.
  unfold Script.publish_and_resolve, publish_reel, get_permalink, call_or_raise,
    fail_with, print. finishes_steps.
Qed.

Lemma poll_loop_finishes (fuel : nat) (cid : jval) :
  (20 ≤ fuel)%nat → finishes (poll_loop fuel cid timers0).
Proof. intros H n. apply (poll_loop_total fuel cid 0 n); lia. Qed.

(** With fuel for twenty polls [main] always comes to an end. *)
Lemma main_finishes (fuel : nat) (video_url caption : string) :
  (20 ≤ fuel)%nat → finishes (main fuel video_url caption).
Proof.
  intros H. unfold Script.main, Script.publish_and_resolve, publish_reel,
    get_permalink, check_video_url_public, create_reel, call_or_raise,
    fail_with, print. cbv zeta. finishes_steps.
  by apply poll_loop_finishes.
Qed.

End WithWorld.

Import Scenario.

(** C8, as stated: any status code other than the three named ones would
    make the loop poll again.  At the twentieth poll 861 seconds have
    been waited; an IN_PROGRESS answer is followed by a sleep of 60
    seconds and the timeout, not by another poll. *)
Lemma pending_status_at_ceiling_stops :
  ¬ (∀ (net : nat → request → http_result) (t : timers) (n : nat)
       (r : response) (status : gmap string jval),
       loop_head t →
       net n (status_request sample_repr "token" (JStr "123")) = Returned r →
       resp_json r = Some status →
       has_key "error" status = false →
       status_code_of sample_repr status ≠ "FINISHED" →
       status_code_of sample_repr status ≠ "ERROR" →
       status_code_of sample_repr status ≠ "ERROR_UPLOADING" →
       (2 ≤ length (requests
                      (poll_loop sample_repr net "token" 2 (JStr "123") t n).1.2))%nat).
Proof.
  intros H.
  specialize (H pending_world (timers_at 19) 21%nat _ _
                (loop_head_timers_at 19 ltac:(lia)) eq_refl eq_refl).
  specialize (H ltac:(by vm_compute) ltac:(by vm_compute) ltac:(by vm_compute)
                ltac:(by vm_compute)).
  vm_compute in H. lia.
Qed.

Example pending_run_times_out :
  (run_script pending_world 30).1 = Stop (Exit 1)
  ∧ length (requests (run_script pending_world 30).2) = 22%nat
  ∧ sleeps (run_script pending_world 30).2
    = [5; 7; 10; 15; 22; 33; 49; 60; 60; 60; 60; 60; 60; 60; 60; 60; 60; 60; 60; 60]
  ∧ total (sleeps (run_script pending_world 30).2) = 921
  ∧ last (run_script pending_world 30).2 = Some (EvPrint LTimedOut).
Proof. vm_compute. done. Qed.

(** The code is compared after upper-casing. *)
Example lowercase_finished_publishes :
  status_code_of sample_repr {[ "status_code" := JStr "finished" ]} = "FINISHED"
  ∧ (run_script lowercase_world 30).1 = Val tt.
Proof. vm_compute. done. Qed.

Lemma poll_dispatch_witness :
  poll_loop sample_repr happy_world "token" 1 (JStr "123") timers0 2%nat
  = (Val tt,
     [EvRequest (status_request sample_repr "token" (JStr "123"));
      EvPrint (LStatus {[ "status_code" := JStr "FINISHED" ]})], 3%nat).
Proof.
  refine (proj1 (proj1 (poll_dispatch sample_hmac sample_repr happy_world "token"
                          "17841400000000000" (Some "s3cret") 0 (JStr "123")
                          timers0 2%nat _ _ eq_refl eq_refl _) _)).
  - vm_compute. reflexivity.
  - vm_compute. reflexivity.
Defined.

Lemma publish_without_id_witness :
  exit_status
    (publish_and_resolve sample_hmac sample_repr no_id_world "token"
       "17841400000000000" (Some "s3cret") (JStr "123") 3%nat).1.1
  = Some (Exit 0).
Proof.
  refine (proj1 (proj2 (publish_without_id sample_hmac sample_repr no_id_world
                          "token" "17841400000000000" (Some "s3cret")
                          (JStr "123") 3%nat _ eq_refl _ _))).
  - vm_compute. reflexivity.
  - vm_compute. reflexivity.
Defined.

(** *** End-to-end runs *)

Example run_to_permalink :
  exit_status (run_script happy_world 30).1 = Some (Exit 0)
  ∧ last (run_script happy_world 30).2
    = Some (EvPrint (LPermalinkResponse permalink_body))
  ∧ length (requests (run_script happy_world 30).2) = 5%nat.
Proof. vm_compute. done. Qed.

Example run_rejected_at_creation :
  exit_status (run_script rejected_world 30).1 = Some (Exit 1)
  ∧ length (requests (run_script rejected_world 30).2) = 2%nat
  ∧ sleeps (run_script rejected_world 30).2 = [].
Proof. vm_compute. done. Qed.

Example run_published_without_id :
  exit_status (run_script no_id_world 30).1 = Some (Exit 0)
  ∧ last (run_script no_id_world 30).2 = Some (EvPrint LNoMediaId)
  ∧ length (requests (run_script no_id_world 30).2) = 4%nat.
Proof. vm_compute. done. Qed.

End ControllerFacts.

(** ** More on the normalizer *)

Module NormalizerMore.
Import PyStr PyStrFacts Normalizer NormalizerFacts.

#[local] Arguments String.append !_ _ / : simpl nomatch.

Lemma split_around_raw (u : string) :
  contains "/raw/" u = true →
  ∃ a b, split slash u = (split slash a ++ "raw" :: split slash b)%list.
Proof.
  intros H. destruct (contains_inv _ _ H) as (a & b & ->). exists a, b.
  change ("/raw/" +:+ b) with (String slash ("raw" +:+ String slash b)).
  by rewrite !split_app_sep.
Qed.

Lemma index_first (x : string) (l : list string) (i j : nat) :
  index x l = Some i → l !! j = Some x → (i ≤ j)%nat.
Proof.
  unfold index. destruct (list_find _ l) as [[k z]|] eqn:E; [| done].
  simpl. intros [= <-] Hj. apply list_find_Some in E as (_ & _ & Hmin).
  destruct (decide (k ≤ j)%nat) as [|Hlt]; [done |].
  exfalso. apply (Hmin j x Hj); [lia | done].
Qed.

Lemma index_found (x : string) (l : list string) :
  x ∈ l → is_Some (index x l).
Proof.
  intros H. unfold index.
  destruct (list_find_elem_of (λ p, p = x) l x H eq_refl) as [[i y] ->].
  by eexists.
Qed.

Lemma first_raw_has_successor (u : string) :
  matches_pattern u = true →
  ∃ idx branch,
    index "raw" (split slash u) = Some idx
    ∧ split slash u !! (idx + 1)%nat = Some branch.
Proof.
  unfold matches_pattern. intros [_ H]%andb_prop.
  destruct (split_around_raw u H) as (a & b & Hsplit).
  assert (split slash u !! length (split slash a) = Some "raw") as Hat.
  { rewrite Hsplit, lookup_app_r by lia. by rewrite Nat.sub_diag. }
  destruct (index_found "raw" (split slash u)) as [idx Hidx].
  { eapply list_elem_of_lookup_2, Hat. }
  pose proof (index_first _ _ _ _ Hidx Hat) as Hle.
  assert (idx + 1 < length (split slash u))%nat as Hlen.
  { rewrite Hsplit, length_app. cbn [length].
    pose proof (split_nonempty slash b). destruct (split slash b); [done |].
    cbn [length]. lia. }
  destruct (lookup_lt_is_Some_2 _ _ Hlen) as [branch Hb]. by exists idx, branch.
Qed.

(** X1: under the pattern test [parts.index("raw")] always finds a
    component, and that component is not the last one: neither the
    [ValueError] of [index] nor the [IndexError] of [parts[idx+1]] can
    occur. *)
Theorem raw_component_found (u : string) :
  matches_pattern u = true →
  ∃ idx branch,
    index "raw" (split slash u) = Some idx
    ∧ split slash u !! (idx + 1)%nat = Some branch.
Proof. exact (first_raw_has_successor u). Qed.

Lemma raw_component_found_witness :
  ∃ idx branch,
    index "raw" (split slash "https://github.com/user/repo/raw/main/file.mp4") = Some idx
    ∧ split slash "https://github.com/user/repo/raw/main/file.mp4" !! (idx + 1)%nat
      = Some branch.
Proof.
  apply (raw_component_found "https://github.com/user/repo/raw/main/file.mp4").
  reflexivity.
Defined.

(** X2: for a URL that passes the pattern test the body of the [try]
    raises in exactly two cases: [url.split("/")] has fewer than five
    components, or the first [raw] is followed by [refs], [heads] and
    nothing else. *)
Theorem rewrite_raises_iff (u : string) :
  matches_pattern u = true →
  rewrite_parts (split slash u) = None
  ↔ (length (split slash u) < 5)%nat
    ∨ ∃ idx, index "raw" (split slash u) = Some idx
             ∧ drop (idx + 1) (split slash u) = ["refs"; "heads"].
Proof.
  intros Hm. destruct (first_raw_has_successor u Hm) as (idx & branch & Hidx & Hb).
  unfold rewrite_parts. split.
  - intros Hnone.
    destruct (decide (length (split slash u) < 5)%nat) as [|Hlen]; [by left |].
    right. exists idx. split; [done |].
    destruct (lookup_lt_is_Some_2 (split slash u) 3 ltac:(lia)) as [user Hu].
    destruct (lookup_lt_is_Some_2 (split slash u) 4 ltac:(lia)) as [repo Hr].
    rewrite Hu, Hr, Hidx in Hnone. cbn [mbind option_bind] in Hnone.
    destruct (decide _) as [Hs|Hs] in Hnone.
    + destruct (split slash u !! (idx + 3)%nat) as [x|] eqn:E; [done |].
      apply lookup_ge_None in E. unfold slice in Hs.
      replace (idx + 3 - (idx + 1))%nat with 2%nat in Hs by lia.
      rewrite take_ge in Hs; [done |]. rewrite length_drop. lia.
    + by rewrite Hb in Hnone.
  - intros [Hlen | (idx' & Hidx' & Hdrop)].
    + rewrite (lookup_ge_None_2 (split slash u) 4) by lia.
      by destruct (split slash u !! 3%nat).
    + rewrite Hidx' in Hidx. injection Hidx as ->.
      destruct (split slash u !! 3%nat) as [user|]; [| done].
      destruct (split slash u !! 4%nat) as [repo|]; [| done].
      rewrite Hidx'. cbn [mbind option_bind]. unfold slice. rewrite Hdrop.
      replace (idx + 3 - (idx + 1))%nat with 2%nat by lia. cbn [take].
      rewrite decide_True by done.
      assert (split slash u !! (idx + 3)%nat = None) as ->; [| done].
      apply lookup_ge_None.
      assert (length (drop (idx + 1) (split slash u)) = 2%nat) as Hl
        by (by rewrite Hdrop).
      rewrite length_drop in Hl. lia.
Qed.

Lemma rewrite_raises_iff_witness :
  rewrite_parts (split slash "https://github.com/u/r/raw/refs/heads") = None
  ∧ normalize_github_raw "https://github.com/u/r/raw/refs/heads"
    = "https://github.com/u/r/raw/refs/heads".
Proof.
  split; [| reflexivity].
  apply (proj2 (rewrite_raises_iff "https://github.com/u/r/raw/refs/heads" eq_refl)).
  right. exists 5%nat. split; reflexivity.
Defined.

Lemma join_split (sep : ascii) (s : string) :
  join (String sep EmptyString) (split sep s) = s.
Proof.
  induction s as [|c s IH]; [reflexivity |]. cbn [split].
  pose proof (split_nonempty sep s) as Hne.
  destruct (Ascii.eqb c sep) eqn:E.
  - apply Ascii.eqb_eq in E as ->.
    destruct (split sep s) as [|p ps]; [done |].
    change (join (String sep EmptyString) (EmptyString :: p :: ps))
      with (String sep (join (String sep EmptyString) (p :: ps))).
    by rewrite IH.
  - destruct (split sep s) as [|p ps]; [done |]. rewrite <- IH.
    by destruct ps.
Qed.

Lemma split_seven (a b c owner repo mid rest : string) :
  sep_free slash a = true → sep_free slash b = true → sep_free slash c = true →
  sep_free slash owner = true → sep_free slash repo = true →
  sep_free slash mid = true →
  split slash (a +:+ "/" +:+ b +:+ "/" +:+ c +:+ "/" +:+ owner +:+ "/" +:+ repo
                 +:+ "/" +:+ mid +:+ "/" +:+ rest)
  = a :: b :: c :: owner :: repo :: mid :: split slash rest.
Proof.
  intros Ha Hb Hc Ho Hr Hm.
  change (a +:+ "/" +:+ b +:+ "/" +:+ c +:+ "/" +:+ owner +:+ "/" +:+ repo
            +:+ "/" +:+ mid +:+ "/" +:+ rest)
    with (a +:+ String slash (b +:+ String slash (c +:+ String slash
            (owner +:+ String slash (repo +:+ String slash
               (mid +:+ String slash rest)))))).
  rewrite !split_app_sep.
  by rewrite (split_sep_free _ _ Ha), (split_sep_free _ _ Hb),
    (split_sep_free _ _ Hc), (split_sep_free _ _ Ho), (split_sep_free _ _ Hr),
    (split_sep_free _ _ Hm).
Qed.

(** X3: the scheme and the host are not inspected beyond the substring
    test.  Whatever the first three components are, a URL
    [a/b/c/<owner>/<repo>/raw/<branch>/<path>] that holds [github.com]
    somewhere is rewritten to the raw-content host, and the text after
    the branch is carried over verbatim (empty segments and a query
    string included). *)
Theorem rewrite_any_host (a b c owner repo branch path : string) :
  sep_free slash a = true → sep_free slash b = true → sep_free slash c = true →
  sep_free slash owner = true → sep_free slash repo = true →
  sep_free slash branch = true →
  a ≠ "raw" → b ≠ "raw" → c ≠ "raw" → owner ≠ "raw" → repo ≠ "raw" →
  let u := a +:+ "/" +:+ b +:+ "/" +:+ c +:+ "/" +:+ owner +:+ "/" +:+ repo
             +:+ "/" +:+ "raw" +:+ "/" +:+ branch +:+ "/" +:+ path in
  contains "github.com" u = true →
  ¬ (branch = "refs" ∧ head (split slash path) = Some "heads") →
  normalize_github_raw u
  = "https://raw.githubusercontent.com/" +:+ owner +:+ "/" +:+ repo +:+ "/"
      +:+ branch +:+ "/" +:+ path.
Proof.
  intros Ha Hb Hc Ho Hr Hbr Hna Hnb Hnc Hno Hnr u Hgh Hamb.
  assert (split slash u
          = a :: b :: c :: owner :: repo :: "raw" :: branch :: split slash path)
    as Hsplit.
  { unfold u. rewrite split_seven by done.
    change (branch +:+ "/" +:+ path) with (branch +:+ String slash path).
    by rewrite split_app_sep, (split_sep_free _ _ Hbr). }
  assert (contains "/raw/" u = true) as Hraw.
  { unfold u.
    apply (contains_append_r _ a), (contains_append_r _ "/"),
      (contains_append_r _ b), (contains_append_r _ "/"),
      (contains_append_r _ c), (contains_append_r _ "/"),
      (contains_append_r _ owner), (contains_append_r _ "/"),
      (contains_append_r _ repo).
    change ("/" +:+ "raw" +:+ "/" +:+ branch +:+ "/" +:+ path)
      with ("/raw/" +:+ branch +:+ "/" +:+ path).
    apply contains_here. }
  unfold normalize_github_raw, matches_pattern. rewrite Hgh, Hraw, Hsplit.
  cbn [andb]. unfold rewrite_parts. cbn [lookup list_lookup mbind option_bind].
  rewrite !index_later, index_here by done.
  cbn [fmap option_fmap option_map mbind option_bind].
  pose proof (split_nonempty slash path) as Hne.
  pose proof (join_split slash path) as Hjoin.
  destruct (split slash path) as [|p ps]; [done |].
  unfold slice. cbn [Nat.add Nat.sub drop take].
  rewrite decide_False.
  - cbn [lookup list_lookup mbind option_bind fst snd default].
    change "/" with (String slash EmptyString). by rewrite Hjoin.
  - intros [= -> ->]. by apply Hamb.
Qed.

Lemma rewrite_any_host_witness :
  normalize_github_raw
    "http://mygithub.com.example.org/o/r/raw/main/dir//f.mp4?raw=true"
  = "https://raw.githubusercontent.com/o/r/main/dir//f.mp4?raw=true".
Proof.
  refine (rewrite_any_host "http:" EmptyString "mygithub.com.example.org" "o" "r"
            "main" "dir//f.mp4?raw=true"
            eq_refl eq_refl eq_refl eq_refl eq_refl eq_refl _ _ _ _ _ eq_refl _);
    first [done | by intros [? _]].
Defined.

End NormalizerMore.

(** ** More on the remote client and the prober *)

Module ClientMore.
Import PyStr PyStrFacts Http Script Messages ClientFacts.

Lemma truncate_prefix (k : nat) (s : string) :
  String.prefix (truncate k s) s = true.
Proof.
  unfold truncate. revert s. induction k as [|k IH]; intros [|c s]; simpl; try done.
  destruct (ascii_dec c c); [apply IH | done].
Qed.

Lemma truncate_length_min (k : nat) (s : string) :
  String.length (truncate k s) = Nat.min k (String.length s).
Proof.
  unfold truncate. revert s. induction k as [|k IH]; intros [|c s]; simpl; try done.
  by rewrite IH.
Qed.

Section WithWorld.
Context (hmac_sha256_hex : string → string → string).
Context (py_repr : jval → string).
Context (net : nat → request → http_result).
Context (ACCESS_TOKEN IG_USER_ID : string) (APP_SECRET : option string).

Local Abbreviation appsecret_proof :=
  (appsecret_proof hmac_sha256_hex ACCESS_TOKEN APP_SECRET).
Local Abbreviation params_with_auth :=
  (params_with_auth hmac_sha256_hex ACCESS_TOKEN APP_SECRET).
Local Abbreviation create_request :=
  (create_request hmac_sha256_hex ACCESS_TOKEN IG_USER_ID APP_SECRET).
Local Abbreviation publish_request :=
  (publish_request hmac_sha256_hex py_repr ACCESS_TOKEN IG_USER_ID APP_SECRET).
Local Abbreviation permalink_request :=
  (permalink_request hmac_sha256_hex py_repr ACCESS_TOKEN APP_SECRET).
Local Abbreviation check_video_url_public := (check_video_url_public net).
Local Abbreviation explain_error := (explain_error py_repr).

(** The dictionary before [p.update(extra)]. *)
Lemma auth_base_lookup (k : string) :
  params_with_auth None !! k
  = if decide (k = "access_token") then Some ACCESS_TOKEN
    else if decide (k = "appsecret_proof")
         then proof ← appsecret_proof;
              if String.eqb proof EmptyString then None else Some proof
         else None.
Proof.
  unfold Script.params_with_auth.
  destruct appsecret_proof as [proof|]; cbn [mbind option_bind].
  - destruct (String.eqb proof EmptyString).
    + rewrite lookup_singleton. repeat case_decide; by simplify_eq.
    + rewrite lookup_insert, lookup_singleton. repeat case_decide; by simplify_eq.
  - rewrite lookup_singleton. repeat case_decide; by simplify_eq.
Qed.

Lemma auth_update (extra : gmap string string) (k : string) :
  params_with_auth (Some extra) !! k
  = match extra !! k with
    | Some v => Some v
    | None => params_with_auth None !! k
    end.
Proof.
  unfold Script.params_with_auth. case_bool_decide as He.
  - subst extra. by rewrite lookup_empty.
  - rewrite lookup_union. by destruct (extra !! k), (_ !! k).
Qed.

(** X4: [params_with_auth] keeps every field of the caller as it is,
    adds the access token unless the caller has set one, and adds no key
    besides [access_token] and [appsecret_proof]. *)
Theorem params_with_auth_fields (extra : gmap string string) :
  (∀ k v, extra !! k = Some v → params_with_auth (Some extra) !! k = Some v)
  ∧ (extra !! "access_token" = None →
     params_with_auth (Some extra) !! "access_token" = Some ACCESS_TOKEN)
  ∧ (∀ k, is_Some (params_with_auth (Some extra) !! k) →
          is_Some (extra !! k) ∨ k = "access_token" ∨ k = "appsecret_proof").
Proof.
  split; [| split].
  - intros k v H. by rewrite auth_update, H.
  - intros H. by rewrite auth_update, H, auth_base_lookup.
  - intros k. rewrite auth_update. destruct (extra !! k) as [v|]; [by left |].
    rewrite auth_base_lookup. repeat case_decide; try by auto.
    all: try by intros [? ?].
Qed.

(** X5: the signed proof on the three operations that use
    [params_with_auth] is exactly [appsecret_proof()]: the digest of the
    token under the secret when a non-empty secret is configured, and no
    parameter at all otherwise.  (A hex digest is never empty.) *)
Theorem proof_field_is_appsecret_proof (video_url caption : string) (id : jval) :
  (∀ key msg, hmac_sha256_hex key msg ≠ EmptyString) →
  rq_fields (create_request video_url caption) !! "appsecret_proof" = appsecret_proof
  ∧ rq_fields (publish_request id) !! "appsecret_proof" = appsecret_proof
  ∧ rq_fields (permalink_request id) !! "appsecret_proof" = appsecret_proof
  ∧ (appsecret_proof = None ↔ APP_SECRET = None ∨ APP_SECRET = Some EmptyString).
Proof.
  intros Hdigest.
  assert (∀ extra : gmap string string,
            extra !! "appsecret_proof" = None →
            params_with_auth (Some extra) !! "appsecret_proof" = appsecret_proof)
    as Hfield.
  { intros extra He. rewrite auth_update, He, auth_base_lookup.
    rewrite decide_False, decide_True by done.
    unfold Script.appsecret_proof. destruct APP_SECRET as [secret|]; [| done].
    destruct (String.eqb secret EmptyString); [done |]. cbn [mbind option_bind].
    by rewrite (proj2 (String.eqb_neq _ _) (Hdigest secret ACCESS_TOKEN)). }
  split; [| split; [| split]].
  - cbv [Script.create_request rq_fields]. apply Hfield.
    by rewrite ?lookup_insert_ne, ?lookup_singleton_ne by done.
  - cbv [Script.publish_request rq_fields]. apply Hfield.
    by rewrite lookup_singleton_ne.
  - cbv [Script.permalink_request rq_fields]. apply Hfield.
    by rewrite lookup_singleton_ne.
  - unfold Script.appsecret_proof. destruct APP_SECRET as [secret|].
    + destruct (String.eqb secret EmptyString) eqn:E.
      * apply String.eqb_eq in E as ->. split; [by right | done].
      * apply String.eqb_neq in E. split; [done |]. intros [|[=]]; done.
    + split; [by left | done].
Qed.

(** *** [safe_json] *)

(** X6: [safe_json] hands a body that decodes back unchanged; otherwise
    its envelope has the keys [error] and [http_status] only, and the
    message quotes the status and a prefix of the body of at most 500
    characters. *)
Theorem safe_json_cases (r : response) :
  (∀ d, resp_json r = Some d → safe_json r = d)
  ∧ (resp_json r = None →
     ∃ excerpt,
       safe_json r
       = {[ "error" := JObj {[ "message" :=
                      JStr ("Non-JSON response (" +:+ pretty (status_code r)
                              +:+ "): " +:+ excerpt) ]};
            "http_status" := JInt (status_code r) ]}
       ∧ String.prefix excerpt (text r) = true
       ∧ String.length excerpt = Nat.min 500 (String.length (text r))
       ∧ dom (safe_json r) = ({[ "error"; "http_status" ]} : gset string)).
Proof.
  split.
  - intros d H. unfold safe_json. by rewrite H.
  - intros H. exists (truncate 500 (text r)). unfold safe_json. rewrite H.
    split; [done |]. split; [apply truncate_prefix |].
    split; [apply truncate_length_min |].
    rewrite dom_insert_L, dom_singleton_L. done.
Qed.

(** *** [explain_error] *)

(** X7: [explain_error] raises exactly when [data["error"]] is a truthy
    value that is not a dict (a string, a number, [True], a list). *)
Theorem explain_error_raises_iff (prefix : string) (data : gmap string jval) :
  explain_error prefix data = None
  ↔ truthy (dict_get "error" data) = true
    ∧ ∀ e, dict_get "error" data ≠ JObj e.
Proof.
  unfold Script.explain_error, py_or.
  destruct (dict_get "error" data) as [| b | z | s | l | e] eqn:E; cbn [truthy].
  - split; [done | by intros [? _]].
  - destruct b; [split; [by split | done] | split; [done | by intros [? _]]].
  - destruct (z =? 0); cbn [negb];
      [split; [done | by intros [? _]] | split; [by split | done]].
  - destruct (String.eqb s EmptyString); cbn [negb];
      [split; [done | by intros [? _]] | split; [by split | done]].
  - destruct l; [split; [done | by intros [? _]] | split; [by split | done]].
  - destruct (negb _); (split; [done | intros [_ H]; by destruct (H e)]).
Qed.

(** X8: on the envelope [safe_json] builds, [explain_error] never raises
    and prints the message of the envelope with no code and no subcode. *)
Theorem explain_error_of_envelope (prefix : string) (r : response) :
  resp_json r = None →
  explain_error prefix (safe_json r)
  = Some (prefix +:+ ": Non-JSON response (" +:+ pretty (status_code r) +:+ "): "
            +:+ truncate 500 (text r) +:+ " (code=None, subcode=None)").
Proof.
  intros H. unfold Script.explain_error, safe_json, dict_get, py_or. rewrite H.
  rewrite lookup_insert_eq. cbn [default from_option id truthy].
  assert (({[ "message" := JStr ("Non-JSON response (" +:+ pretty (status_code r)
                                  +:+ "): " +:+ truncate 500 (text r)) ]}
             : gmap string jval) ≠ ∅) as Hne by apply insert_non_empty.
  rewrite bool_decide_eq_false_2 by done. cbn [negb].
  rewrite lookup_singleton_eq, !lookup_singleton_ne by done.
  cbn [default from_option id truthy].
  assert (∀ x y, String.eqb ("Non-JSON response (" +:+ x +:+ y) EmptyString = false)
    as Hs by done.
  rewrite Hs. cbn [negb py_str].
  rewrite !PyStrFacts.append_assoc. reflexivity.
Qed.

(** *** Prober *)

(** The prober, case by case. *)
Lemma check_unfold (url : string) (n : nat) :
  check_video_url_public url n =
  let head := EvRequest (head_probe url) in
  let get := EvRequest (get_probe url) in
  match net n (head_probe url) with
  | Raised e => (Val (false, "HEAD request failed: " +:+ e), [head], S n)
  | Returned r =>
      if 400 <=? status_code r then
        (Val (false, "URL returned HTTP " +:+ pretty (status_code r)), [head], S n)
      else if is_video (default EmptyString (content_type r)) then
        (Val (true, "OK"), [head], S n)
      else
        match net (S n) (get_probe url) with
        | Raised e =>
            (Val (false, "Could not validate video content-type: " +:+ e),
             [head; get], S (S n))
        | Returned g =>
            match raise_for_status g with
            | Some e =>
                (Val (false, "Could not validate video content-type: " +:+ e),
                 [head; get], S (S n))
            | None =>
                if is_video (default EmptyString (content_type g)) then
                  (Val (true, "OK"), [head; get; EvClose], S (S n))
                else
                  (Val (false, "Unexpected Content-Type: "
                                 +:+ shown_ctype (default EmptyString (content_type g))),
                   [head; get; EvClose], S (S n))
            end
        end
  end.
Proof.
  unfold Script.check_video_url_public. step_prog.
  destruct (net n _) as [e|r]; [reflexivity |]. step_prog.
  destruct (400 <=? status_code r); [reflexivity |]. step_prog.
  destruct (is_video (default EmptyString (content_type r))); [reflexivity |].
  step_prog. destruct (net (S n) _) as [e|g]; [reflexivity |]. step_prog.
  destruct (raise_for_status g); [reflexivity |]. step_prog.
  by destruct (is_video (default EmptyString (content_type g))).
Qed.

(** X9: the prober accepts a URL exactly when the HEAD is answered below
    400 and a video or octet-stream type is seen, either on the HEAD or
    on a fallback GET that is answered with a status outside 400..599;
    the reason is then [OK]. *)
Theorem prober_accepts_iff (url : string) (n : nat) :
  (∃ why, (check_video_url_public url n).1.1 = Val (true, why))
  ↔ ∃ r, net n (head_probe url) = Returned r
         ∧ status_code r < 400
         ∧ (is_video (default EmptyString (content_type r)) = true
            ∨ ∃ g, net (S n) (get_probe url) = Returned g
                   ∧ raise_for_status g = None
                   ∧ is_video (default EmptyString (content_type g)) = true).
Proof.
  rewrite check_unfold. cbv zeta. split.
  - intros [why H]. destruct (net n _) as [e|r]; [by simplify_eq/= |].
    exists r. destruct (400 <=? status_code r) eqn:Hs; [by simplify_eq/= |].
    apply Z.leb_gt in Hs. split; [done |]. split; [done |].
    destruct (is_video (default EmptyString (content_type r))); [by left |].
    right. destruct (net (S n) _) as [e|g]; [by simplify_eq/= |].
    exists g. split; [done |].
    destruct (raise_for_status g); [by simplify_eq/= |]. split; [done |].
    destruct (is_video (default EmptyString (content_type g))); [done |].
    by simplify_eq/=.
  - intros (r & -> & Hs & Hv). apply Z.leb_gt in Hs. rewrite Hs. exists "OK".
    destruct (is_video (default EmptyString (content_type r))); [done |].
    destruct Hv as [Hv | (g & -> & -> & ->)]; done.
Qed.

(** X10: the prober never raises and never exits: it returns a pair,
    after the HEAD alone or the HEAD followed by one GET, and a refusal
    after a HEAD that raised or was answered with 400 or more is decided
    on the HEAD alone. *)
Theorem prober_always_returns (url : string) (n : nat) :
  ∃ ok why tr,
    check_video_url_public url n = (Val (ok, why), tr, (n + length (requests tr))%nat)
    ∧ (requests tr = [head_probe url]
       ∨ requests tr = [head_probe url; get_probe url])
    ∧ ((∀ r, net n (head_probe url) = Returned r → 400 ≤ status_code r) →
       ok = false ∧ requests tr = [head_probe url]).
Proof.
  rewrite check_unfold. cbv zeta.
  assert (n + 1 = S n)%nat as H1 by lia.
  assert (n + 2 = S (S n))%nat as H2 by lia.
  destruct (net n _) as [e|r].
  { eexists _, _, [EvRequest (head_probe url)].
    cbn [requests omap list_omap length]. rewrite H1.
    split; [done |]. split; [by left | done]. }
  destruct (400 <=? status_code r) eqn:Hs.
  { eexists _, _, [EvRequest (head_probe url)].
    cbn [requests omap list_omap length]. rewrite H1.
    split; [done |]. split; [by left | done]. }
  apply Z.leb_gt in Hs.
  assert (¬ ∀ r0, Returned r = Returned r0 → 400 ≤ status_code r0) as Hno
    by (intros H; specialize (H r eq_refl); lia).
  destruct (is_video (default EmptyString (content_type r))).
  { eexists _, _, [EvRequest (head_probe url)].
    cbn [requests omap list_omap length]. rewrite H1.
    split; [done |]. split; [by left | done]. }
  destruct (net (S n) _) as [e|g].
  { eexists _, _, [EvRequest (head_probe url); EvRequest (get_probe url)].
    cbn [requests omap list_omap length]. rewrite H2.
    split; [done |]. split; [by right | done]. }
  destruct (raise_for_status g).
  { eexists _, _, [EvRequest (head_probe url); EvRequest (get_probe url)].
    cbn [requests omap list_omap length]. rewrite H2.
    split; [done |]. split; [by right | done]. }
  destruct (is_video (default EmptyString (content_type g))).
  all: eexists _, _, [EvRequest (head_probe url); EvRequest (get_probe url); EvClose].
  all: cbn [requests omap list_omap length]; rewrite H2.
  all: split; [done |]; split; [by right | done].
Qed.

End WithWorld.

Import Scenario.

Lemma safe_json_cases_witness :
  safe_json created = {[ "id" := JStr "123" ]}
  ∧ dom (safe_json bad_gateway) = ({[ "error"; "http_status" ]} : gset string).
Proof.
  split.
  - apply (proj1 (safe_json_cases created)). reflexivity.
  - destruct (proj2 (safe_json_cases bad_gateway) eq_refl)
      as (excerpt & _ & _ & _ & Hdom). exact Hdom.
Defined.

Lemma params_with_auth_fields_witness :
  let sent := params_with_auth sample_hmac "token" (Some "s3cret")
                (Some {[ "fields" := "permalink" ]}) in
  sent !! "fields" = Some "permalink" ∧ sent !! "access_token" = Some "token".
Proof.
  split.
  - apply (proj1 (params_with_auth_fields sample_hmac "token" (Some "s3cret")
                    {[ "fields" := "permalink" ]})).
    reflexivity.
  - apply (proj1 (proj2 (params_with_auth_fields sample_hmac "token" (Some "s3cret")
                           {[ "fields" := "permalink" ]}))).
    reflexivity.
Defined.

Lemma explain_error_raises_iff_witness :
  explain_error sample_repr "Create failed" {[ "error" := JStr "rate limited" ]} = None.
Proof.
  apply (proj2 (explain_error_raises_iff sample_repr "Create failed"
                  {[ "error" := JStr "rate limited" ]})).
  split; [reflexivity | done].
Defined.

Lemma explain_error_of_envelope_witness :
  explain_error sample_repr "Publish failed" (safe_json bad_gateway)
  = Some "Publish failed: Non-JSON response (502): <html>502 Bad Gateway</html> (code=None, subcode=None)".
Proof.
  rewrite (explain_error_of_envelope sample_repr "Publish failed" bad_gateway eq_refl).
  vm_compute. reflexivity.
Defined.

Lemma sample_hmac_nonempty (key msg : string) : sample_hmac key msg ≠ EmptyString.
Proof. unfold sample_hmac. discriminate. Qed.

Lemma proof_field_is_appsecret_proof_witness :
  rq_fields (create_request sample_hmac "token" "17841400000000000" (Some "s3cret")
               sample_url "caption") !! "appsecret_proof"
  = Some "hmac(s3cret,token)"
  ∧ rq_fields (create_request sample_hmac "token" "17841400000000000" None
                 sample_url "caption") !! "appsecret_proof"
    = None.
Proof.
  split.
  - exact (proj1 (proof_field_is_appsecret_proof sample_hmac sample_repr "token"
                    "17841400000000000" (Some "s3cret") sample_url "caption"
                    JNull sample_hmac_nonempty)).
  - exact (proj1 (proof_field_is_appsecret_proof sample_hmac sample_repr "token"
                    "17841400000000000" None sample_url "caption"
                    JNull sample_hmac_nonempty)).
Defined.

Lemma prober_accepts_iff_witness :
  ∃ why, (check_video_url_public video_world sample_url 0%nat).1.1 = Val (true, why).
Proof.
  apply (proj2 (prober_accepts_iff video_world sample_url 0%nat)).
  exists (page (Some "video/mp4")). split; [reflexivity |]. split; [reflexivity |].
  left. reflexivity.
Defined.

Lemma prober_always_returns_witness :
  ∃ ok why tr,
    check_video_url_public (λ _ _, Raised "timed out") sample_url 0%nat
    = (Val (ok, why), tr, (0 + length (requests tr))%nat)
    ∧ ok = false ∧ requests tr = [head_probe sample_url].
Proof.
  destruct (prober_always_returns (λ _ _, Raised "timed out") sample_url 0%nat)
    as (ok & why & tr & Hrun & _ & Hhead).
  exists ok, why, tr. split; [exact Hrun |]. apply Hhead. intros r Hr. discriminate Hr.
Defined.

End ClientMore.

(** ** More on the controller *)

Module ControllerMore.
Import PyStr Http Script Messages ControllerFacts.

Lemma requests_cons_request (rq : request) (l : list event) :
  requests (EvRequest rq :: l) = rq :: requests l.
Proof. reflexivity. Qed.

Lemma requests_cons_print (p : line) (l : list event) :
  requests (EvPrint p :: l) = requests l.
Proof. reflexivity. Qed.

Lemma requests_cons_sleep (z : Z) (l : list event) :
  requests (EvSleep z :: l) = requests l.
Proof. reflexivity. Qed.

Lemma requests_cons_close (l : list event) : requests (EvClose :: l) = requests l.
Proof. reflexivity. Qed.

Lemma requests_nil : requests [] = [].
Proof. reflexivity. Qed.

Lemma sleeps_cons_request (rq : request) (l : list event) :
  sleeps (EvRequest rq :: l) = sleeps l.
Proof. reflexivity. Qed.

Lemma sleeps_cons_print (p : line) (l : list event) :
  sleeps (EvPrint p :: l) = sleeps l.
Proof. reflexivity. Qed.

Lemma sleeps_cons_close (l : list event) : sleeps (EvClose :: l) = sleeps l.
Proof. reflexivity. Qed.

Lemma sleeps_nil : sleeps [] = [].
Proof. reflexivity. Qed.

Lemma requests_app (a b : list event) :
  requests (a ++ b) = (requests a ++ requests b)%list.
Proof. unfold requests. by rewrite omap_app. Qed.

Lemma sleeps_app (a b : list event) :
  sleeps (a ++ b) = (sleeps a ++ sleeps b)%list.
Proof. unfold sleeps. by rewrite omap_app. Qed.

Create Rewrite HintDb trace.
#[export] Hint Rewrite requests_app requests_cons_request requests_cons_print
  requests_cons_sleep requests_cons_close requests_nil sleeps_app
  sleeps_cons_request sleeps_cons_print sleeps_cons_close sleeps_nil
  @filter_app @app_nil_r : trace.

(** Find an event in a trace written with [::] and [++]. *)
Ltac in_trace :=
  first [ assumption
        | apply list_elem_of_here
        | apply list_elem_of_further; in_trace
        | apply elem_of_app; first [left; in_trace | right; in_trace] ].

(** Bring two ways of writing a trace to one form. *)
Ltac norm_trace :=
  rewrite <- ?app_assoc; cbn [app]; rewrite ?app_nil_r; rewrite <- ?app_assoc;
  cbn [app].

Section WithWorld.
Context (hmac_sha256_hex : string → string → string).
Context (py_repr : jval → string).
Context (net : nat → request → http_result).
Context (ACCESS_TOKEN IG_USER_ID : string) (APP_SECRET : option string).

Local Abbreviation status_request := (status_request py_repr ACCESS_TOKEN).
Local Abbreviation create_request :=
  (create_request hmac_sha256_hex ACCESS_TOKEN IG_USER_ID APP_SECRET).
Local Abbreviation publish_request :=
  (publish_request hmac_sha256_hex py_repr ACCESS_TOKEN IG_USER_ID APP_SECRET).
Local Abbreviation permalink_request :=
  (permalink_request hmac_sha256_hex py_repr ACCESS_TOKEN APP_SECRET).
Local Abbreviation status_code_of := (status_code_of py_repr).
Local Abbreviation check_video_url_public := (check_video_url_public net).
Local Abbreviation poll_loop := (poll_loop py_repr net ACCESS_TOKEN).
Local Abbreviation publish_and_resolve :=
  (publish_and_resolve hmac_sha256_hex py_repr net ACCESS_TOKEN IG_USER_ID APP_SECRET).
Local Abbreviation main :=
  (main hmac_sha256_hex py_repr net ACCESS_TOKEN IG_USER_ID APP_SECRET).
Local Abbreviation explain_error := (explain_error py_repr).

(** *** The polling loop as a whole *)

(** What a run of the loop from the [k]-th iteration looks like. *)
Lemma poll_shape (fuel : nat) (cid : jval) (k n : nat) :
  (k ≤ 19)%nat →
  ∀ res tr n', poll_loop fuel cid (timers_at k) n = (res, tr, n') →
    requests tr = replicate (length (requests tr)) (status_request cid)
    ∧ n' = (n + length (requests tr))%nat
    ∧ (k + length (requests tr) ≤ 20)%nat
    ∧ (length (sleeps tr) ≤ length (requests tr))%nat
    ∧ waited (timers_at k) + total (sleeps tr) ≤ 921
    ∧ (EvPrint LTimedOut ∈ tr →
       (k + length (requests tr) = 20)%nat
       ∧ waited (timers_at k) + total (sleeps tr) = 921
       ∧ res = Stop (Exit 1))
    ∧ (res = Val tt →
       ∃ status, last tr = Some (EvPrint (LStatus status))
                 ∧ has_key "error" status = false
                 ∧ status_code_of status = "FINISHED").
Proof.
  revert k n. induction fuel as [|fuel IH]; intros k n Hk res tr n'.
  { intros [= <- <- <-]. cbn [requests sleeps omap list_omap length replicate total foldr].
    pose proof (waited_at_below k Hk). unfold max_wait_sec in *.
    split_and!; try done; try lia. all: try by intros ?%elem_of_nil. }
  rewrite poll_loop_unfold. cbv zeta.
  pose proof (waited_at_below k Hk) as Hw. unfold max_wait_sec in Hw.
  assert (∀ l : list event,
            requests l = [] → sleeps l = [] → EvPrint LTimedOut ∉ l →
            ∀ o, (o = Val tt →
                  ∃ status, last (EvRequest (status_request cid) :: l)
                            = Some (EvPrint (LStatus status))
                            ∧ has_key "error" status = false
                            ∧ status_code_of status = "FINISHED") →
            (o, EvRequest (status_request cid) :: l, S n) = (res, tr, n') →
            requests tr = replicate (length (requests tr)) (status_request cid)
            ∧ n' = (n + length (requests tr))%nat
            ∧ (k + length (requests tr) ≤ 20)%nat
            ∧ (length (sleeps tr) ≤ length (requests tr))%nat
            ∧ waited (timers_at k) + total (sleeps tr) ≤ 921
            ∧ (EvPrint LTimedOut ∈ tr →
               (k + length (requests tr) = 20)%nat
               ∧ waited (timers_at k) + total (sleeps tr) = 921
               ∧ res = Stop (Exit 1))
            ∧ (res = Val tt →
               ∃ status, last tr = Some (EvPrint (LStatus status))
                         ∧ has_key "error" status = false
                         ∧ status_code_of status = "FINISHED")) as Hstop.
  { intros l Hrq Hsl Hno o Hval [= <- <- <-].
    change (requests (EvRequest (status_request cid) :: l))
      with (status_request cid :: requests l).
    change (sleeps (EvRequest (status_request cid) :: l)) with (sleeps l).
    rewrite Hrq, Hsl. cbn [length replicate total foldr].
    split_and!; try done; try lia.
    all: try (rewrite elem_of_cons; by intros [|]). }
  destruct (net n _) as [e|r];
    [apply (Hstop []); [done | done | by intros ?%elem_of_nil | done] |].
  destruct (resp_json r) as [status|];
    [| apply (Hstop []); [done | done | by intros ?%elem_of_nil | done]].
  destruct (has_key "error" status) eqn:Herr.
  { destruct (Script.explain_error py_repr "Status failed" status).
    - apply (Hstop [_; _]); try done. rewrite !elem_of_cons.
      by intros [|[|?%elem_of_nil]].
    - apply (Hstop [_]); try done. rewrite !elem_of_cons.
      by intros [|?%elem_of_nil]. }
  destruct (String.eqb _ "FINISHED") eqn:Hfin.
  { apply (Hstop [_]); try done.
    - rewrite !elem_of_cons. by intros [|?%elem_of_nil].
    - intros _. exists status. by apply String.eqb_eq in Hfin. }
  destruct (is_error_code _).
  { apply (Hstop [_; _]); try done. rewrite !elem_of_cons.
    by intros [|[|?%elem_of_nil]]. }
  assert (5 ≤ backoff (timers_at k) ≤ 60) as Hb by apply sleep_at_bounds.
  destruct (max_wait_sec <=? _) eqn:Hc.
  { intros [= <- <- <-]. apply Z.leb_le in Hc. unfold max_wait_sec in Hc.
    rewrite <- timers_at_succ in Hc.
    assert (k = 19%nat) as ->.
    { destruct (decide (k = 19%nat)) as [|Hne]; [done |].
      pose proof (waited_at_below (S k) ltac:(lia)). unfold max_wait_sec in *. lia. }
    cbn [requests sleeps omap list_omap length replicate total foldr].
    split_and!; try done; try lia; try by vm_compute. }
  apply Z.leb_gt in Hc. rewrite <- timers_at_succ in *.
  assert (S k ≤ 19)%nat as Hk'.
  { destruct (decide (S k ≤ 19)%nat) as [|Hn]; [done |].
    assert (k = 19%nat) as -> by lia. by vm_compute in Hc. }
  destruct (Script.poll_loop _ _ _ fuel cid _ (S n)) as [[res' tr'] n''] eqn:Hrec.
  specialize (IH (S k) (S n) Hk' res' tr' n'' Hrec)
    as (IHrq & IHn & IHk & IHsl & IHw & IHto & IHval).
  intros [= <- <- <-].
  change (requests (EvRequest (status_request cid) :: EvPrint (LStatus status)
                      :: EvSleep (backoff (timers_at k)) :: tr'))
    with (status_request cid :: requests tr').
  change (sleeps (EvRequest (status_request cid) :: EvPrint (LStatus status)
                    :: EvSleep (backoff (timers_at k)) :: tr'))
    with (backoff (timers_at k) :: sleeps tr').
  cbn [length replicate total foldr]. fold (total (sleeps tr')).
  assert (waited (timers_at (S k)) = waited (timers_at k) + backoff (timers_at k))
    as Hadv by reflexivity.
  split; [by rewrite <- IHrq |]. split; [lia |]. split; [lia |].
  split; [lia |]. split; [lia |]. split.
  - rewrite !elem_of_cons. intros [|[|[|Hin]]]; try done.
    destruct (IHto Hin) as (? & ? & ?). repeat split; [lia | lia | done].
  - intros Hv. destruct (IHval Hv) as (st & Hlast & ? & ?). exists st.
    split; [| done]. destruct tr' as [|e tr']; [done |].
    by rewrite !last_cons_cons.
Qed.

(** More fuel than the loop needs changes nothing. *)
Lemma poll_fuel_irrelevant (fuel fuel' : nat) (cid : jval) (k n : nat) :
  (k ≤ 19)%nat → (20 ≤ k + fuel)%nat → (20 ≤ k + fuel')%nat →
  poll_loop fuel cid (timers_at k) n = poll_loop fuel' cid (timers_at k) n.
Proof.
  revert fuel' k n. induction fuel as [|fuel IH]; intros fuel' k n Hk Hf Hf'; [lia |].
  destruct fuel' as [|fuel']; [lia |].
  rewrite !poll_loop_unfold. cbv zeta.
  destruct (net n _) as [e|r]; [done |].
  destruct (resp_json r) as [status|]; [| done].
  destruct (has_key "error" status); [done |].
  destruct (String.eqb _ "FINISHED"); [done |].
  destruct (is_error_code _); [done |].
  destruct (max_wait_sec <=? _) eqn:Hc; [done |].
  rewrite <- timers_at_succ in *.
  assert (S k ≤ 19)%nat as Hk'.
  { destruct (decide (S k ≤ 19)%nat) as [|Hn]; [done |].
    assert (k = 19%nat) as -> by lia. by vm_compute in Hc. }
  by rewrite (IH fuel' (S k) (S n)) by lia.
Qed.

(** Step 3, case by case. *)
Lemma publish_unfold (cid : jval) (n : nat) :
  publish_and_resolve cid n =
  let rq := EvRequest (publish_request cid) in
  match net n (publish_request cid) with
  | Raised e => (Stop (Uncaught e), [EvPrint LPublishing; rq], S n)
  | Returned r =>
      let pub := safe_json r in
      let said := EvPrint (LPublishResponse pub) in
      if has_key "error" pub then
        match explain_error "Publish failed" pub with
        | Some _ =>
            (Stop (Exit 1),
             [EvPrint LPublishing; rq; said; EvPrint (LPublishFailed pub)], S n)
        | None => (Stop (Uncaught "AttributeError"), [EvPrint LPublishing; rq; said], S n)
        end
      else
        let media_id := dict_get "id" pub in
        if truthy media_id then
          match net (S n) (permalink_request media_id) with
          | Raised e =>
              (Stop (Uncaught e),
               [EvPrint LPublishing; rq; said; EvRequest (permalink_request media_id)],
               S (S n))
          | Returned r' =>
              (Val tt,
               [EvPrint LPublishing; rq; said; EvRequest (permalink_request media_id);
                EvPrint LDone; EvPrint (LPermalinkResponse (safe_json r'))],
               S (S n))
          end
        else (Val tt, [EvPrint LPublishing; rq; said; EvPrint LNoMediaId], S n)
  end.
Proof.
  unfold Script.publish_and_resolve, publish_reel, get_permalink. step_prog.
  destruct (net n _) as [e|r]; [reflexivity |]. step_prog.
  destruct (has_key "error" (safe_json r));
    [by destruct (Script.explain_error py_repr "Publish failed" (safe_json r)) |].
  step_prog. destruct (truthy _); [| reflexivity]. step_prog.
  by destruct (net (S n) _) as [e|r'].
Qed.

(** [main], case by case. *)
Lemma main_unfold (fuel : nat) (video_url caption : string) (n : nat) :
  main fuel video_url caption n =
  let u := Normalizer.normalize_github_raw video_url in
  match check_video_url_public u n with
  | (Val (ok, why), tr0, n1) =>
      if ok then
        let rq := EvRequest (create_request u caption) in
        match net n1 (create_request u caption) with
        | Raised e => (Stop (Uncaught e), (tr0 ++ [EvPrint LCreating; rq])%list, S n1)
        | Returned r =>
            let creation := safe_json r in
            let pre := (tr0 ++ [EvPrint LCreating; rq;
                                EvPrint (LCreateResponse creation)])%list in
            if has_key "error" creation then
              match explain_error "Create failed" creation with
              | Some _ =>
                  (Stop (Exit 1), (pre ++ [EvPrint (LCreateFailed creation)])%list, S n1)
              | None => (Stop (Uncaught "AttributeError"), pre, S n1)
              end
            else
              let cid := dict_get "id" creation in
              if truthy cid then
                match poll_loop fuel cid timers0 (S n1) with
                | (Val _, tr1, n2) =>
                    let '(res, tr2, n3) := publish_and_resolve cid n2 in
                    (res, (pre ++ EvPrint LWaiting :: tr1 ++ tr2)%list, n3)
                | (Stop o, tr1, n2) =>
                    (Stop o, (pre ++ EvPrint LWaiting :: tr1)%list, n2)
                | (OutOfFuel, tr1, n2) =>
                    (OutOfFuel, (pre ++ EvPrint LWaiting :: tr1)%list, n2)
                end
              else (Stop (Exit 1), (pre ++ [EvPrint LNoCreationId])%list, S n1)
        end
      else (Stop (Exit 1), (tr0 ++ [EvPrint (LVideoCheckFailed why)])%list, n1)
  | (Stop o, tr0, n1) => (Stop o, tr0, n1)
  | (OutOfFuel, tr0, n1) => (OutOfFuel, tr0, n1)
  end.
Proof.
  unfold Script.main, create_reel. cbv zeta. step_prog.
  destruct (Script.check_video_url_public net _ n) as [[[[ok why]|o|] tr0] n1];
    [| reflexivity..].
  cbn [fst snd]. destruct ok; [| reflexivity]. step_prog.
  destruct (net n1 _) as [e|r]; [reflexivity |]. step_prog.
  destruct (has_key "error" (safe_json r));
    [destruct (Script.explain_error py_repr "Create failed" (safe_json r));
       by norm_trace |].
  step_prog. destruct (truthy _); [| by norm_trace]. step_prog.
  destruct (Script.poll_loop _ _ _ fuel _ _ (S n1)) as [[[[]|o|] tr1] n2].
  - destruct (Script.publish_and_resolve _ _ _ _ _ _ _ n2) as [[res tr2] n3].
    by norm_trace.
  - by norm_trace.
  - by norm_trace.
Qed.

(** The prober always returns, after one or two requests of its own. *)
Lemma check_returns (url : string) (n : nat) :
  ∃ ok why tr0 n1,
    check_video_url_public url n = (Val (ok, why), tr0, n1)
    ∧ (requests tr0 = [head_probe url]
       ∨ requests tr0 = [head_probe url; get_probe url])
    ∧ sleeps tr0 = [].
Proof.
  rewrite ClientMore.check_unfold. cbv zeta.
  destruct (net n _) as [e|r]; [by eexists _, _, _, _; split_and!; [| left |] |].
  destruct (400 <=? status_code r); [by eexists _, _, _, _; split_and!; [| left |] |].
  destruct (is_video _); [by eexists _, _, _, _; split_and!; [| left |] |].
  destruct (net (S n) _) as [e|g]; [by eexists _, _, _, _; split_and!; [| right |] |].
  destruct (raise_for_status g); [by eexists _, _, _, _; split_and!; [| right |] |].
  destruct (is_video _); by eexists _, _, _, _; split_and!; [| right |].
Qed.

Lemma probes_not_post (url : string) (l : list request) :
  l = [head_probe url] ∨ l = [head_probe url; get_probe url] →
  filter (λ rq, is_post rq = true) l = [].
Proof. by intros [-> | ->]. Qed.

Lemma statuses_not_post (cid : jval) (k : nat) :
  filter (λ rq, is_post rq = true) (replicate k (status_request cid)) = [].
Proof.
  induction k as [|k IH]; [done |]. cbn [replicate].
  by rewrite filter_cons_False.
Qed.

(** *** The loop *)

(** X11: whatever the remote answers, the loop sends the status request
    at most twenty times and nothing else, sleeps at most once per poll,
    and sleeps 921 seconds at most in all. *)
Theorem poll_loop_bounded (fuel : nat) (cid : jval) (n : nat) :
  let tr := (poll_loop fuel cid timers0 n).1.2 in
  requests tr = replicate (length (requests tr)) (status_request cid)
  ∧ (length (requests tr) ≤ 20)%nat
  ∧ (length (sleeps tr) ≤ length (requests tr))%nat
  ∧ total (sleeps tr) ≤ 921.
Proof.
  cbv zeta.
  destruct (Script.poll_loop _ _ _ fuel cid timers0 n) as [[res tr] n'] eqn:E.
  destruct (poll_shape fuel cid 0 n ltac:(lia) res tr n' E)
    as (Hrq & _ & Hk & Hsl & Hw & _).
  cbn [fst snd]. change (waited (timers_at 0)) with 0 in Hw.
  split_and!; [done | lia | done | lia].
Qed.

(** X12: the timeout is reached in one way only: after the twentieth
    poll and 921 seconds of sleep, and the run then stops with status 1. *)
Theorem timeout_is_exact (fuel : nat) (cid : jval) (n : nat) :
  let run := poll_loop fuel cid timers0 n in
  EvPrint LTimedOut ∈ run.1.2 →
  run.1.1 = Stop (Exit 1)
  ∧ length (requests run.1.2) = 20%nat
  ∧ total (sleeps run.1.2) = 921.
Proof.
  cbv zeta.
  destruct (Script.poll_loop _ _ _ fuel cid timers0 n) as [[res tr] n'] eqn:E.
  destruct (poll_shape fuel cid 0 n ltac:(lia) res tr n' E)
    as (_ & _ & _ & _ & _ & Hto & _).
  cbn [fst snd]. intros Hin. destruct (Hto Hin) as (Hk & Hw & ->).
  change (waited (timers_at 0)) with 0 in Hw. split_and!; [done | lia | lia].
Qed.

(** X13: fuel beyond twenty polls is never used: [main] with more fuel
    is [main] with twenty, and neither runs out. *)
Theorem main_fuel_irrelevant (fuel : nat) (video_url caption : string) (n : nat) :
  (20 ≤ fuel)%nat →
  main fuel video_url caption n = main 20 video_url caption n
  ∧ (main fuel video_url caption n).1.1 ≠ OutOfFuel.
Proof.
  intros H. split; [| by apply main_finishes].
  rewrite !main_unfold. cbv zeta.
  destruct (Script.check_video_url_public _ _ n) as [[[[ok why]|o|] tr0] n1]; [| done..].
  destruct ok; [| done]. destruct (net n1 _) as [e|r]; [done |].
  destruct (has_key "error" (safe_json r)); [done |].
  destruct (truthy _); [| done].
  change timers0 with (timers_at 0).
  by rewrite (poll_fuel_irrelevant fuel 20 _ 0 (S n1)) by lia.
Qed.

(** X14: an error envelope on a status answer ends the run at once with
    status 1, whatever the status code beside it, FINISHED included:
    nothing is published.  (The message must be printable: see
    [explain_error].) *)
Theorem status_error_stops (fuel : nat) (cid : jval) (t : timers) (n : nat)
    (r : response) (status : gmap string jval) :
  net n (status_request cid) = Returned r →
  resp_json r = Some status →
  has_key "error" status = true →
  is_Some (explain_error "Status failed" status) →
  (poll_loop (S fuel) cid t ;; publish_and_resolve cid) n
  = (Stop (Exit 1),
     [EvRequest (status_request cid); EvPrint (LStatus status);
      EvPrint (LStatusFailed status)], S n).
Proof.
  intros Hnet Hjson Herr [msg Hmsg]. apply seq_after_stop.
  rewrite poll_loop_unfold. cbv zeta. by rewrite Hnet, Hjson, Herr, Hmsg.
Qed.

(** X22: an [error] value that [explain_error] cannot format (a truthy
    value that is not a dict) ends the run with the [AttributeError] it
    raises: the failure line is not printed and [sys.exit(1)] is not
    reached, at a status poll as at the publish step. *)
Theorem unprintable_error_raises (fuel : nat) (cid : jval) (t : timers) (n : nat)
    (r : response) :
  (∀ status,
     net n (status_request cid) = Returned r →
     resp_json r = Some status →
     has_key "error" status = true →
     explain_error "Status failed" status = None →
     (poll_loop (S fuel) cid t ;; publish_and_resolve cid) n
     = (Stop (Uncaught "AttributeError"),
        [EvRequest (status_request cid); EvPrint (LStatus status)], S n))
  ∧ (net n (publish_request cid) = Returned r →
     has_key "error" (safe_json r) = true →
     explain_error "Publish failed" (safe_json r) = None →
     publish_and_resolve cid n
     = (Stop (Uncaught "AttributeError"),
        [EvPrint LPublishing; EvRequest (publish_request cid);
         EvPrint (LPublishResponse (safe_json r))], S n)).
Proof.
  split.
  - intros status Hnet Hjson Herr Hmsg. apply seq_after_stop.
    rewrite poll_loop_unfold. cbv zeta. by rewrite Hnet, Hjson, Herr, Hmsg.
  - intros Hnet Herr Hmsg. rewrite publish_unfold. cbv zeta.
    by rewrite Hnet, Herr, Hmsg.
Qed.

(** *** Publishing *)

(** X15: the permalink is best effort.  Once the publish answer carries
    an id and no error, any answer to the permalink request, an error
    envelope or a page that is not JSON included, is printed and the run
    ends with status 0. *)
Theorem permalink_is_best_effort (cid : jval) (n : nat) (r r' : response) :
  net n (publish_request cid) = Returned r →
  has_key "error" (safe_json r) = false →
  truthy (dict_get "id" (safe_json r)) = true →
  net (S n) (permalink_request (dict_get "id" (safe_json r))) = Returned r' →
  publish_and_resolve cid n
  = (Val tt,
     [EvPrint LPublishing; EvRequest (publish_request cid);
      EvPrint (LPublishResponse (safe_json r));
      EvRequest (permalink_request (dict_get "id" (safe_json r)));
      EvPrint LDone; EvPrint (LPermalinkResponse (safe_json r'))], S (S n))
  ∧ exit_status (publish_and_resolve cid n).1.1 = Some (Exit 0).
Proof.
  intros Hnet Herr Hid Hlink.
  rewrite publish_unfold. cbv zeta. by rewrite Hnet, Herr, Hid, Hlink.
Qed.

(** *** The whole run *)

Lemma is_post_create (u caption : string) : is_post (create_request u caption) = true.
Proof. reflexivity. Qed.

Lemma is_post_publish (cid : jval) : is_post (publish_request cid) = true.
Proof. reflexivity. Qed.

Lemma is_post_permalink (mid : jval) : is_post (permalink_request mid) ≠ true.
Proof. done. Qed.

(** Split a run of [main] into its thirteen ways to end. *)
Ltac main_cases video_url n :=
  rewrite main_unfold; cbv zeta;
  let ok := fresh "ok" in
  destruct (check_returns (Normalizer.normalize_github_raw video_url) n)
    as (ok & why & tr0 & n1 & Hchk & Hprobes & Hquiet);
  match goal with
  | H : Script.check_video_url_public _ _ _ = _ |- _ => rewrite H
  end;
  destruct ok;
    [ destruct (net n1 _) as [e|r] eqn:Hcreate;
      [ | destruct (has_key "error" (safe_json r)) eqn:Herr;
          [ destruct (Script.explain_error py_repr "Create failed" (safe_json r))
              eqn:Hmsg
          | destruct (truthy (dict_get "id" (safe_json r))) eqn:Hid;
              [ destruct (Script.poll_loop py_repr net ACCESS_TOKEN _ _ timers0 (S n1))
                  as [[[[]|o|] tr1] n2] eqn:Hpoll;
                [ rewrite publish_unfold; cbv zeta;
                  destruct (net n2 _) as [e|rp] eqn:Hpub;
                  [ | destruct (has_key "error" (safe_json rp)) eqn:Hperr;
                      [ destruct (Script.explain_error py_repr "Publish failed"
                                    (safe_json rp)) eqn:Hpmsg
                      | destruct (truthy (dict_get "id" (safe_json rp))) eqn:Hmid;
                          [ destruct (net (S n2) _) as [e|rl] eqn:Hlink | ] ] ]
                | | ]
              | ] ] ]
    | ];
  cbn [fst snd];
  try match goal with
      | H : Script.poll_loop _ _ _ _ _ _ _ = _ |- _ =>
          apply (poll_shape _ _ 0 _ ltac:(lia)) in H
            as (Hstatuses & Hn2 & Hcount & _ & _ & _ & Hbreak)
      end.

(** X16: when the prober refuses the URL, [main] prints the reason and
    exits with status 1 without creating anything: no POST is sent and
    nothing is slept. *)
Theorem main_probe_refused (fuel : nat) (video_url caption : string) (n : nat)
    (why : string) (tr0 : list event) (n1 : nat) :
  check_video_url_public (Normalizer.normalize_github_raw video_url) n
  = (Val (false, why), tr0, n1) →
  main fuel video_url caption n
  = (Stop (Exit 1), (tr0 ++ [EvPrint (LVideoCheckFailed why)])%list, n1)
  ∧ filter (λ rq, is_post rq = true) (requests (main fuel video_url caption n).1.2) = []
  ∧ sleeps (main fuel video_url caption n).1.2 = [].
Proof.
  intros H. rewrite main_unfold. cbv zeta. rewrite H. cbn [fst snd].
  destruct (check_returns (Normalizer.normalize_github_raw video_url) n)
    as (ok & why' & tr0' & n1' & Hchk & Hprobes & Hquiet).
  rewrite H in Hchk. injection Hchk as <- <- <- <-.
  autorewrite with trace. by rewrite (probes_not_post _ _ Hprobes), Hquiet.
Qed.

(** X17: when the creation answer carries an error envelope, or no id,
    [main] exits with status 1 before any status poll: the creation
    request is the last request and nothing is slept. *)
Theorem main_creation_refused (fuel : nat) (video_url caption : string) (n : nat)
    (why : string) (tr0 : list event) (n1 : nat) (r : response) :
  let u := Normalizer.normalize_github_raw video_url in
  check_video_url_public u n = (Val (true, why), tr0, n1) →
  net n1 (create_request u caption) = Returned r →
  (has_key "error" (safe_json r) = true
   ∧ is_Some (explain_error "Create failed" (safe_json r)))
  ∨ (has_key "error" (safe_json r) = false
     ∧ truthy (dict_get "id" (safe_json r)) = false) →
  let run := main fuel video_url caption n in
  run.1.1 = Stop (Exit 1)
  ∧ requests run.1.2 = (requests tr0 ++ [create_request u caption])%list
  ∧ sleeps run.1.2 = []
  ∧ run.2 = S n1.
Proof.
  intros u Hchk Hnet Hbad. cbv zeta. rewrite main_unfold. cbv zeta.
  fold u. rewrite Hchk, Hnet.
  destruct (check_returns u n) as (ok & why' & tr0' & n1' & Hchk' & _ & Hquiet).
  rewrite Hchk in Hchk'. injection Hchk' as <- <- <- <-.
  destruct Hbad as [[-> [msg ->]] | [-> ->]]; cbn [fst snd];
    autorewrite with trace; by rewrite Hquiet.
Qed.

(** X18: an exception raised by the creation call (a timeout, a refused
    connection) is not caught and the call is not repeated: the run ends
    with that exception, the creation request being the last event. *)
Theorem main_creation_raises (fuel : nat) (video_url caption : string) (n : nat)
    (why e : string) (tr0 : list event) (n1 : nat) :
  let u := Normalizer.normalize_github_raw video_url in
  check_video_url_public u n = (Val (true, why), tr0, n1) →
  net n1 (create_request u caption) = Raised e →
  main fuel video_url caption n
  = (Stop (Uncaught e),
     (tr0 ++ [EvPrint LCreating; EvRequest (create_request u caption)])%list, S n1).
Proof.
  intros u Hchk Hnet. rewrite main_unfold. cbv zeta. fold u. by rewrite Hchk, Hnet.
Qed.

(** X19: a run sends at most one creation request and at most one
    publish request, in that order, and no other POST. *)
Theorem main_posts (fuel : nat) (video_url caption : string) (n : nat) :
  let u := Normalizer.normalize_github_raw video_url in
  let posts := filter (λ rq, is_post rq = true)
                 (requests (main fuel video_url caption n).1.2) in
  posts = []
  ∨ posts = [create_request u caption]
  ∨ ∃ cid, posts = [create_request u caption; publish_request cid].
Proof.
  cbv zeta. main_cases video_url n.
  all: autorewrite with trace; rewrite (probes_not_post _ _ Hprobes).
  all: try (rewrite Hstatuses, statuses_not_post).
  all: repeat first
         [ rewrite filter_cons_True by first [apply is_post_create | apply is_post_publish]
         | rewrite filter_cons_False by apply is_post_permalink ].
  all: rewrite ?filter_nil; cbn [app].
  all: first [ left; reflexivity | right; left; reflexivity
             | right; right; eexists; reflexivity ].
Qed.

Lemma video_url_of_probe (u : string) :
  rq_fields (head_probe u) !! "video_url" = None
  ∧ rq_fields (get_probe u) !! "video_url" = None.
Proof. split; apply lookup_empty. Qed.

Lemma video_url_of_create (u caption : string) :
  rq_fields (create_request u caption) !! "video_url" = Some u.
Proof.
  cbv [Script.create_request rq_fields]. rewrite ClientMore.auth_update.
  do 2 (rewrite lookup_insert_ne by done). by rewrite lookup_insert_eq.
Qed.

Lemma video_url_of_status (cid : jval) :
  rq_fields (status_request cid) !! "video_url" = None.
Proof.
  cbv [Script.status_request rq_fields].
  by rewrite lookup_insert_ne, lookup_singleton_ne.
Qed.

Lemma video_url_of_publish (cid : jval) :
  rq_fields (publish_request cid) !! "video_url" = None.
Proof.
  cbv [Script.publish_request rq_fields]. rewrite ClientMore.auth_update.
  rewrite lookup_singleton_ne by done. rewrite ClientMore.auth_base_lookup.
  by rewrite !decide_False.
Qed.

Lemma video_url_of_permalink (mid : jval) :
  rq_fields (permalink_request mid) !! "video_url" = None.
Proof.
  cbv [Script.permalink_request rq_fields]. rewrite ClientMore.auth_update.
  rewrite lookup_singleton_ne by done. rewrite ClientMore.auth_base_lookup.
  by rewrite !decide_False.
Qed.

(** X20: the URL that is probed and the URL that is submitted are the
    same, normalised, URL: the first request of a run is the HEAD on it,
    and no request carries another [video_url]. *)
Theorem main_url_consistent (fuel : nat) (video_url caption : string) (n : nat) :
  let u := Normalizer.normalize_github_raw video_url in
  let sent := requests (main fuel video_url caption n).1.2 in
  head sent = Some (head_probe u)
  ∧ ∀ rq v, rq ∈ sent → rq_fields rq !! "video_url" = Some v → v = u.
Proof.
  cbv zeta. main_cases video_url n.
  all: autorewrite with trace.
  all: split; [by destruct Hprobes as [-> | ->] |].
  all: intros rq v Hin Hfield; try rewrite Hstatuses in Hin.
  all: rewrite ?elem_of_app, ?elem_of_cons, ?elem_of_nil in Hin.
  all: assert (rq = head_probe (Normalizer.normalize_github_raw video_url)
               ∨ rq = get_probe (Normalizer.normalize_github_raw video_url)
               ∨ rq = create_request (Normalizer.normalize_github_raw video_url) caption
               ∨ (∃ cid, rq = status_request cid)
               ∨ (∃ cid, rq = publish_request cid)
               ∨ (∃ mid, rq = permalink_request mid)) as Hkind.
  all: try (destruct Hprobes as [Hp | Hp]; rewrite Hp in Hin;
            rewrite ?elem_of_cons, ?elem_of_nil in Hin;
            repeat match goal with
                   | H : _ ∨ _ |- _ => destruct H as [H | H]
                   | H : False |- _ => destruct H
                   | H : _ ∈ replicate _ _ |- _ => apply elem_of_replicate_inv in H
                   end;
            subst rq; eauto 10; fail).
  all: destruct Hkind as [-> | [-> | [-> | [[cid ->] | [[cid ->] | [mid ->]]]]]].
  all: first [ rewrite (proj1 (video_url_of_probe _)) in Hfield
             | rewrite (proj2 (video_url_of_probe _)) in Hfield
             | rewrite video_url_of_create in Hfield
             | rewrite video_url_of_status in Hfield
             | rewrite video_url_of_publish in Hfield
             | rewrite video_url_of_permalink in Hfield ].
  all: congruence.
Qed.

(** X21: a run that ends with status 0 has sent exactly one creation
    request and one publish request, has seen a status answer FINISHED
    without an error envelope, and a publish answer without one. *)
Theorem main_success_sound (fuel : nat) (video_url caption : string) (n : nat) :
  let u := Normalizer.normalize_github_raw video_url in
  let run := main fuel video_url caption n in
  run.1.1 = Val tt →
  ∃ cid status pub,
    filter (λ rq, is_post rq = true) (requests run.1.2)
    = [create_request u caption; publish_request cid]
    ∧ EvPrint (LStatus status) ∈ run.1.2
    ∧ has_key "error" status = false
    ∧ status_code_of status = "FINISHED"
    ∧ EvPrint (LPublishResponse pub) ∈ run.1.2
    ∧ has_key "error" pub = false.
Proof.
  cbv zeta. main_cases video_url n.
  all: try (intros [=]; fail).
  all: intros _; destruct (Hbreak eq_refl) as (status & Hlast & Hnoerr & Hfin).
  all: apply last_Some_elem_of in Hlast.
  all: exists (dict_get "id" (safe_json r)), status, (safe_json rp).
  all: split_and!; [| | done | done | | done].
  all: try (in_trace; fail).
  all: autorewrite with trace; rewrite (probes_not_post _ _ Hprobes).
  all: rewrite Hstatuses, statuses_not_post.
  all: repeat first
         [ rewrite filter_cons_True by first [apply is_post_create | apply is_post_publish]
         | rewrite filter_cons_False by apply is_post_permalink ].
  all: by rewrite ?filter_nil.
Qed.

End WithWorld.
Import Scenario Scenario2.

Lemma timeout_is_exact_witness :
  let run := poll_loop sample_repr pending_world "token" 30 (JStr "123") timers0 2%nat in
  run.1.1 = Stop (Exit 1)
  ∧ length (requests run.1.2) = 20%nat
  ∧ total (sleeps run.1.2) = 921.
Proof.
  apply (timeout_is_exact sample_repr pending_world "token" 30 (JStr "123") 2%nat).
  apply (list_elem_of_lookup_2 _ 60). vm_compute. reflexivity.
Defined.

Lemma main_fuel_irrelevant_witness :
  run_main happy_world 30 = run_main happy_world 20.
Proof.
  refine (proj1 (main_fuel_irrelevant sample_hmac sample_repr happy_world "token"
                   "17841400000000000" (Some "s3cret") 30 sample_url "caption"
                   0%nat _)).
  lia.
Defined.

Lemma status_error_stops_witness :
  (poll_loop sample_repr throttled_world "token" 1 (JStr "123") timers0
     ;; publish_and_resolve sample_hmac sample_repr throttled_world "token"
          "17841400000000000" (Some "s3cret") (JStr "123")) 2%nat
  = (Stop (Exit 1),
     [EvRequest (status_request sample_repr "token" (JStr "123"));
      EvPrint (LStatus throttled); EvPrint (LStatusFailed throttled)], 3%nat).
Proof.
  apply (status_error_stops sample_hmac sample_repr throttled_world "token"
           "17841400000000000" (Some "s3cret") 0 (JStr "123") timers0 2%nat
           (json_body throttled) throttled eq_refl eq_refl).
  - vm_compute. reflexivity.
  - vm_compute. by eexists.
Defined.

Lemma unprintable_error_raises_witness :
  (poll_loop sample_repr garbled_world "token" 1 (JStr "123") timers0
     ;; publish_and_resolve sample_hmac sample_repr garbled_world "token"
          "17841400000000000" (Some "s3cret") (JStr "123")) 2%nat
  = (Stop (Uncaught "AttributeError"),
     [EvRequest (status_request sample_repr "token" (JStr "123"));
      EvPrint (LStatus garbled)], 3%nat).
Proof.
  apply (proj1 (unprintable_error_raises sample_hmac sample_repr garbled_world
                  "token" "17841400000000000" (Some "s3cret") 0 (JStr "123")
                  timers0 2%nat (json_body garbled)) garbled eq_refl eq_refl).
  - vm_compute. reflexivity.
  - vm_compute. reflexivity.
Defined.

Lemma permalink_is_best_effort_witness :
  exit_status
    (publish_and_resolve sample_hmac sample_repr no_permalink_world "token"
       "17841400000000000" (Some "s3cret") (JStr "123") 3%nat).1.1
  = Some (Exit 0).
Proof.
  refine (proj2 (permalink_is_best_effort sample_hmac sample_repr no_permalink_world
                   "token" "17841400000000000" (Some "s3cret") (JStr "123") 3%nat
                   (json_body {[ "id" := JStr "456" ]}) bad_gateway eq_refl _ _ eq_refl)).
  - vm_compute. reflexivity.
  - vm_compute. reflexivity.
Defined.

Lemma main_probe_refused_witness :
  (run_main html_world 30).1.1 = Stop (Exit 1)
  ∧ requests (run_main html_world 30).1.2
    = [head_probe sample_url; get_probe sample_url].
Proof.
  assert (check_video_url_public html_world
            (Normalizer.normalize_github_raw sample_url) 0%nat
          = (Val (false, "Unexpected Content-Type: text/html"),
             [EvRequest (head_probe sample_url); EvRequest (get_probe sample_url);
              EvClose], 2%nat)) as Hchk by (vm_compute; reflexivity).
  destruct (main_probe_refused sample_hmac sample_repr html_world "token"
              "17841400000000000" (Some "s3cret") 30 sample_url "caption" 0%nat
              _ _ _ Hchk) as (Hrun & _ & _).
  unfold run_main. rewrite Hrun. split; reflexivity.
Defined.

Lemma main_creation_refused_witness :
  (run_main rejected_world 30).1.1 = Stop (Exit 1)
  ∧ sleeps (run_main rejected_world 30).1.2 = [].
Proof.
  assert (check_video_url_public rejected_world
            (Normalizer.normalize_github_raw sample_url) 0%nat
          = (Val (true, "OK"), [EvRequest (head_probe sample_url)], 1%nat))
    as Hchk by (vm_compute; reflexivity).
  destruct (main_creation_refused sample_hmac sample_repr rejected_world "token"
              "17841400000000000" (Some "s3cret") 30 sample_url "caption" 0%nat
              _ _ _ (json_body invalid_parameter) Hchk eq_refl)
    as (Hres & _ & Hquiet & _).
  - left. split; [vm_compute; reflexivity | vm_compute; by eexists].
  - split; [exact Hres | exact Hquiet].
Defined.

Lemma main_creation_raises_witness :
  (run_main create_timeout_world 30).1.1 = Stop (Uncaught "Read timed out.").
Proof.
  assert (check_video_url_public create_timeout_world
            (Normalizer.normalize_github_raw sample_url) 0%nat
          = (Val (true, "OK"), [EvRequest (head_probe sample_url)], 1%nat))
    as Hchk by (vm_compute; reflexivity).
  unfold run_main.
  by rewrite (main_creation_raises sample_hmac sample_repr create_timeout_world
                "token" "17841400000000000" (Some "s3cret") 30 sample_url
                "caption" 0%nat _ "Read timed out." _ _ Hchk eq_refl).
Defined.

Lemma main_success_sound_witness :
  ∃ cid status pub,
    filter (λ rq, is_post rq = true) (requests (run_main happy_world 30).1.2)
    = [create_request sample_hmac "token" "17841400000000000" (Some "s3cret")
         (Normalizer.normalize_github_raw sample_url) "caption";
       publish_request sample_hmac sample_repr "token" "17841400000000000"
         (Some "s3cret") cid]
    ∧ EvPrint (LStatus status) ∈ (run_main happy_world 30).1.2
    ∧ has_key "error" status = false
    ∧ status_code_of sample_repr status = "FINISHED"
    ∧ EvPrint (LPublishResponse pub) ∈ (run_main happy_world 30).1.2
    ∧ has_key "error" pub = false.
Proof.
  apply (main_success_sound sample_hmac sample_repr happy_world "token"
           "17841400000000000" (Some "s3cret") 30 sample_url "caption" 0%nat).
  vm_compute. reflexivity.
Defined.

End ControllerMore.
